(** * Anjay Lite object skeleton generator ([tools/anjay_codegen.py])

    A shallow embedding of the generator script and the properties of its
    identifier sanitizer, resource and object model, instance-count
    resolution, template selection and command-line driver.

    Conventions of the embedding:
    - a Python [str] is a [string]: the UTF-8 bytes of the text.  Every byte
      of a code point outside ASCII is at least 128, so it lies outside
      [[a-zA-Z0-9]] exactly as the code point does, and a maximal run of
      such code points is a maximal run of such bytes;
    - a Python [int] is a [Z];
    - a raised exception is the [Raise] branch of [result];
    - [None] is the [None] of an [option];
    - a [dict] keyed by [int] is a [gmap Z]. *)

From Stdlib Require Import Ascii.
From stdpp Require Import base option list gmap strings sorting.

Local Open Scope Z_scope.

(** ** Exceptions *)

Inductive exn : Set :=
  | IndexError
  | AssertionError
  | KeyError
  | ValueError
  | TypeError
  | AttributeError
  | XmlParseError
  | FileNotFoundError
  | TemplateError.

Inductive result (A : Type) : Type :=
  | Ok (a : A)
  | Raise (e : exn).
Arguments Ok {A} a.
Arguments Raise {A} e.

#[global] Instance result_ret : MRet result := @Ok.
#[global] Instance result_bind : MBind result := λ A B f m,
  match m with
  | Ok a => f a
  | Raise e => Raise e
  end.
#[global] Instance result_fmap : FMap result := λ A B f m,
  match m with
  | Ok a => Ok (f a)
  | Raise e => Raise e
  end.

Definition raises {A} (m : result A) : bool :=
  match m with
  | Ok _ => false
  | Raise _ => true
  end.

(** ** Characters *)

Definition in_range (lo hi c : ascii) : bool :=
  let n := N_of_ascii c in
  ((N_of_ascii lo <=? n) && (n <=? N_of_ascii hi))%N.

Definition is_digit (c : ascii) : bool := in_range "0" "9" c.
Definition is_lower (c : ascii) : bool := in_range "a" "z" c.
Definition is_upper (c : ascii) : bool := in_range "A" "Z" c.
Definition is_alpha (c : ascii) : bool := is_lower c || is_upper c.

(** The complement of the class [[^a-zA-Z0-9]] of [NONALPHANUM_REGEX]. *)
Definition is_alnum (c : ascii) : bool := is_lower c || is_upper c || is_digit c.

Definition is_underscore (c : ascii) : bool := Ascii.eqb c "_".

(** ** The identifier sanitizer *)

Definition DIGIT_SPELLINGS : list (ascii * string) :=
  [ ("0"%char, "zero"); ("1"%char, "one"); ("2"%char, "two");
    ("3"%char, "three"); ("4"%char, "four"); ("5"%char, "five");
    ("6"%char, "six"); ("7"%char, "seven"); ("8"%char, "eight");
    ("9"%char, "nine") ].

(** [d.get(k, default)] on a dict written as its list of items. *)
Fixpoint dict_get (d : list (ascii * string)) (k : ascii) (default : string) : string :=
  match d with
  | [] => default
  | (k', v) :: d' => if Ascii.eqb k' k then v else dict_get d' k default
  end.

(** [NONALPHANUM_REGEX.sub('_', n)]: every maximal run of characters outside
    [[a-zA-Z0-9]] becomes one ['_'].  [in_run] says that the previous
    character already belongs to the run being replaced. *)
Fixpoint nonalphanum_sub (in_run : bool) (n : string) : string :=
  match n with
  | EmptyString => EmptyString
  | String c rest =>
      if is_alnum c then String c (nonalphanum_sub false rest)
      else if in_run then nonalphanum_sub true rest
      else String "_" (nonalphanum_sub true rest)
  end.

(** [s.strip('_')], as [lstrip] followed by [rstrip]. *)
Fixpoint lstrip_underscore (s : string) : string :=
  match s with
  | EmptyString => EmptyString
  | String c rest => if is_underscore c then lstrip_underscore rest else s
  end.

Fixpoint rstrip_underscore (s : string) : string :=
  match s with
  | EmptyString => EmptyString
  | String c rest =>
      match rstrip_underscore rest with
      | EmptyString => if is_underscore c then EmptyString else String c EmptyString
      | rest' => String c rest'
      end
  end.

Definition strip_underscore (s : string) : string :=
  rstrip_underscore (lstrip_underscore s).

Definition _sanitize_identifier (n : string) : result string :=
  let identifier := strip_underscore (nonalphanum_sub false n) in
  match identifier with
  | EmptyString => Raise IndexError
  | String c0 rest => Ok (dict_get DIGIT_SPELLINGS c0 (String c0 EmptyString) +:+ rest)
  end.

Fixpoint all_chars (p : ascii → bool) (s : string) : bool :=
  match s with
  | EmptyString => true
  | String c rest => p c && all_chars p rest
  end.

(** A source-code identifier of the generated C: a letter or ['_'], then
    letters, digits and ['_']. *)
Definition valid_identifier (s : string) : bool :=
  match s with
  | EmptyString => false
  | String c rest =>
      (is_alpha c || is_underscore c)
      && all_chars (λ c, is_alnum c || is_underscore c) rest
  end.

(** [spaced b s]: [s] is made of letters, digits and single ['_'] between
    them; with [b] set it does not start with ['_'] either. *)
Fixpoint spaced (after_sep : bool) (s : string) : bool :=
  match s with
  | EmptyString => true
  | String c rest =>
      if is_alnum c then spaced false rest
      else is_underscore c && negb after_sep && spaced true rest
  end.

(** [tidy b s]: [spaced b s], and [s] does not end with ['_']; [tidy true s]
    moreover says that [s] is not empty. *)
Fixpoint tidy (after_sep : bool) (s : string) : bool :=
  match s with
  | EmptyString => negb after_sep
  | String c rest =>
      if is_alnum c then tidy false rest
      else is_underscore c && negb after_sep && tidy true rest
  end.

Ltac by_cases_on_char c :=
  destruct c as [[] [] [] [] [] [] [] []]; vm_compute; try done; auto.

(** ** Python builtins and library calls that the script uses as they are *)

(** The string methods, [int] and [textwrap.fill] are taken as they come:
    nothing below depends on what they compute. *)
Record builtins : Type := {
  int : string → result Z;             (* int(s) of a str; ValueError *)
  strip : string → string;             (* s.strip() *)
  upper : string → string;             (* s.upper() *)
  lower : string → string;             (* s.lower() *)
  fill : string → string;              (* textwrap.fill(s) *)
  replace : string → string → string → string  (* s.replace(old, new) *)
}.

(** The literals ['\n'], ['\n\t * '] and ['\n * ']. *)
Definition newline : string := String "010" EmptyString.
Definition newline_tab_star : string := newline +:+ String "009" " * ".
Definition newline_star : string := newline +:+ " * ".

(** [a or b] on strings: the empty string is false. *)
Definition str_or (a b : string) : string :=
  match a with
  | EmptyString => b
  | _ => a
  end.

Fixpoint startswith (s p : string) : bool :=
  match p, s with
  | EmptyString, _ => true
  | String a p', String b s' => Ascii.eqb a b && startswith s' p'
  | String _ _, EmptyString => false
  end.

(** [sub in s] on strings. *)
Fixpoint str_contains (sub s : string) : bool :=
  startswith s sub ||
  match s with
  | EmptyString => false
  | String _ s' => str_contains sub s'
  end.

(** [sorted(l, key=key)]: the stable sort by an integer key. *)
Fixpoint insert_by {A} (key : A → Z) (x : A) (l : list A) : list A :=
  match l with
  | [] => [x]
  | y :: l' => if bool_decide (key x ≤ key y) then x :: l else y :: insert_by key x l'
  end.

Definition sorted {A} (key : A → Z) (l : list A) : list A :=
  foldr (insert_by key) [] l.

(** ** String methods on ASCII text

    The sanitizer returns letters, digits and ['_'] only, and on such text
    [lower], [upper], [capitalize], [split] and [join] work character by
    character as below. *)

Definition ascii_lower (c : ascii) : ascii :=
  if is_upper c then ascii_of_N (N_of_ascii c + 32) else c.

Definition ascii_upper (c : ascii) : ascii :=
  if is_lower c then ascii_of_N (N_of_ascii c - 32) else c.

Fixpoint str_map (f : ascii → ascii) (s : string) : string :=
  match s with
  | EmptyString => EmptyString
  | String c rest => String (f c) (str_map f rest)
  end.

(** [s.lower()] and [s.upper()] *)
Definition str_lower (s : string) : string := str_map ascii_lower s.
Definition str_upper (s : string) : string := str_map ascii_upper s.

(** [s.capitalize()]: the first character in upper case, the others in
    lower case. *)
Definition str_capitalize (s : string) : string :=
  match s with
  | EmptyString => EmptyString
  | String c rest => String (ascii_upper c) (str_lower rest)
  end.

(** [s.split('_')] *)
Fixpoint split_underscore (s : string) : list string :=
  match s with
  | EmptyString => [EmptyString]
  | String c rest =>
      if is_underscore c then EmptyString :: split_underscore rest
      else
        match split_underscore rest with
        | word :: words => String c word :: words
        | [] => [String c EmptyString]
        end
  end.

(** The characters of [s] that satisfy [p], in their order. *)
Fixpoint str_filter (p : ascii → bool) (s : string) : string :=
  match s with
  | EmptyString => EmptyString
  | String c rest => if p c then String c (str_filter p rest) else str_filter p rest
  end.

(** [''.join(words)] *)
Definition str_join (words : list string) : string :=
  foldr String.append EmptyString words.

(** A dict literal with [str] keys and values, as its list of items:
    [k in d] and [d.get(k)]. *)
Fixpoint assoc (d : list (string * string)) (k : string) : option string :=
  match d with
  | [] => None
  | (k', v) :: d' => if bool_decide (k' = k) then Some v else assoc d' k
  end.

Definition is_key (d : list (string * string)) (k : string) : bool :=
  match assoc d k with
  | Some _ => true
  | None => false
  end.

(** ** [xml.etree.ElementTree.Element] *)

#[warning="-register-all"]
Inductive Element : Type :=
  | Elem (tag : string) (attrib : list (string * string))
         (text : option string) (children : list Element).

Module Element.
Definition tag (e : Element) : string := let 'Elem t _ _ _ := e in t.
Definition attrib (e : Element) : list (string * string) := let 'Elem _ a _ _ := e in a.
Definition text (e : Element) : option string := let 'Elem _ _ t _ := e in t.
Definition children (e : Element) : list Element := let 'Elem _ _ _ c := e in c.

(** [e.get(key)] *)
Definition get (e : Element) (key : string) : option string :=
  (λ ikv, ikv.2.2) <$> list_find (λ kv, kv.1 = key) (attrib e).

(** [e.find(tag)]: the first child with that tag. *)
Definition find (e : Element) (t : string) : option Element :=
  snd <$> list_find (λ c, tag c = t) (children e).

(** [e.findall(tag)]: the children with that tag, in document order. *)
Definition findall (e : Element) (t : string) : list Element :=
  filter (λ c, tag c = t) (children e).
End Element.

Section parsing.
Context (py : builtins).

Definition _node_text (n : option Element) : string :=
  strip py (default "" (n ≫= Element.text)).

(** [{'Single': False, 'Multiple': True}[s]] *)
Definition single_multiple (s : string) : result bool :=
  if bool_decide (s = "Single") then Ok false
  else if bool_decide (s = "Multiple") then Ok true
  else Raise KeyError.

(** [{'Optional': False, 'Mandatory': True}[s]] *)
Definition optional_mandatory (s : string) : result bool :=
  if bool_decide (s = "Optional") then Ok false
  else if bool_decide (s = "Mandatory") then Ok true
  else Raise KeyError.

(** [int(x)] of an attribute that may be absent. *)
Definition int_opt (x : option string) : result Z :=
  match x with
  | None => Raise TypeError
  | Some s => int py s
  end.
End parsing.

(** ** [ResourceDef] *)

Module ResourceDef.
Record t : Type := {
  rid : Z;
  name : string;
  operations : string;
  multiple : bool;
  mandatory : bool;
  type : string;
  range_enumeration : string;
  units : string;
  description : string
}.

Definition kind_enum (self : t) : result string :=
  if negb (bool_decide (operations self ∈ ["R"; "W"; "RW"; "E"; "BS_RW"]))
  then Raise AssertionError
  else
    let result := "ANJ_DM_RES_" +:+ operations self in
    if multiple self then
      if str_contains "E" (operations self) then Raise AssertionError
      else Ok (result +:+ "M")
    else Ok result.

Definition mandatory_str (self : t) : string :=
  if mandatory self then "Mandatory" else "Optional".

Definition multiple_str (self : t) : string :=
  if multiple self then "Multiple" else "Single".

Definition name_snake (self : t) : result string :=
  str_lower <$> _sanitize_identifier (name self).

Definition type_enum_types : list (string * string) :=
  [ ("string", "ANJ_DATA_TYPE_STRING");
    ("integer", "ANJ_DATA_TYPE_INT");
    ("float", "ANJ_DATA_TYPE_DOUBLE");
    ("boolean", "ANJ_DATA_TYPE_BOOL");
    ("opaque", "ANJ_DATA_TYPE_BYTES");
    ("time", "ANJ_DATA_TYPE_TIME");
    ("objlnk", "ANJ_DATA_TYPE_OBJLNK");
    ("unsigned integer", "ANJ_DATA_TYPE_UINT");
    ("corelnk", "ANJ_DATA_TYPE_STRING") ].

Definition union_res_value_field_types : list (string * string) :=
  [ ("string", "bytes_or_string.data");
    ("integer", "int_value");
    ("float", "double_value");
    ("boolean", "bool_value");
    ("opaque", "bytes_or_string.data");
    ("time", "time_value");
    ("objlnk", "objlnk");
    ("unsigned integer", "uint_value");
    ("corelnk", "bytes_or_string.data") ].

Section parsing.
Context (py : builtins).

(** The name is any text, so [upper] is the builtin here. *)
Definition name_upper (self : t) : result string :=
  _sanitize_identifier (upper py (name self)).

Definition type_enum (self : t) : result string :=
  let types := type_enum_types in
  if negb (is_key types (lower py (type self)))
     && negb (str_contains "E" (operations self))
  then Raise AssertionError
  else Ok (default "ANJ_DATA_TYPE_NULL" (assoc types (lower py (type self)))).

Definition union_res_value_field (self : t) : string :=
  let types := union_res_value_field_types in
  default "Error: unknown type" (assoc types (lower py (type self))).

Definition from_etree (res : Element) : result t :=
  rid ← int_opt py (Element.get res "ID");
  let name := _node_text py (Element.find res "Name") in
  let operations := str_or (upper py (_node_text py (Element.find res "Operations"))) "RW" in
  multiple ← single_multiple (_node_text py (Element.find res "MultipleInstances"));
  mandatory ← optional_mandatory (_node_text py (Element.find res "Mandatory"));
  let type := str_or (lower py (_node_text py (Element.find res "Type"))) "N/A" in
  let range_enumeration := str_or (_node_text py (Element.find res "RangeEnumeration")) "N/A" in
  let units := str_or (_node_text py (Element.find res "Units")) "N/A" in
  let description :=
    replace py (fill py (_node_text py (Element.find res "Description")))
            newline newline_tab_star in
  Ok {| rid := rid; name := name; operations := operations; multiple := multiple;
        mandatory := mandatory; type := type; range_enumeration := range_enumeration;
        units := units; description := description |}.
End parsing.
End ResourceDef.

(** ** [ObjectDef] *)

Module ObjectDef.
Record t : Type := {
  oid : Z;
  name : string;
  version : string;
  description : string;
  urn : string;
  multiple : bool;
  mandatory : bool;
  resources : list ResourceDef.t
}.

Definition name_snake (self : t) : result string :=
  str_lower <$> _sanitize_identifier (name self).

Definition name_pascal (self : t) : result string :=
  (λ identifier, str_join (str_capitalize <$> split_underscore identifier))
    <$> _sanitize_identifier (name self).

Definition name_upper (self : t) : result string :=
  name_snake ← name_snake self;
  _sanitize_identifier (str_upper name_snake).

Definition mandatory_str (self : t) : string :=
  if mandatory self then "Mandatory" else "Optional".

Definition multiple_str (self : t) : string :=
  if multiple self then "Multiple" else "Single".

Definition has_any_readable_resources (self : t) : bool :=
  existsb (λ res, str_contains "R" (ResourceDef.operations res)) (resources self).

Definition has_any_writable_resources (self : t) : bool :=
  existsb (λ res, str_contains "W" (ResourceDef.operations res)) (resources self).

Definition has_any_executable_resources (self : t) : bool :=
  existsb (λ res, str_contains "E" (ResourceDef.operations res)) (resources self).

Definition has_any_multiple_resources (self : t) : bool :=
  existsb ResourceDef.multiple (resources self).

Definition has_any_multiple_writable_resources (self : t) : bool :=
  existsb (λ res, ResourceDef.multiple res
                  && str_contains "W" (ResourceDef.operations res))
          (resources self).

Definition needs_instance_reset_handler (self : t) : bool :=
  multiple self || has_any_writable_resources self.

Section parsing.
Context (py : builtins).

Definition parse_resources (obj : Element) : result (list ResourceDef.t) :=
  match Element.find obj "Resources" with
  | None => Raise AttributeError
  | Some rs =>
      items ← mapM (ResourceDef.from_etree py) (Element.findall rs "Item");
      Ok (sorted ResourceDef.rid items)
  end.

Definition from_etree (obj : Element) (resources_subset : option (list Z)) : result t :=
  resources ← parse_resources obj;
  let resources :=
    match resources_subset with
    | Some subset => filter (λ r, ResourceDef.rid r ∈ subset) resources
    | None => resources
    end in
  oid ← int py (_node_text py (Element.find obj "ObjectID"));
  let name := _node_text py (Element.find obj "Name") in
  let version := _node_text py (Element.find obj "ObjectVersion") in
  let description :=
    replace py (fill py (_node_text py (Element.find obj "Description1")))
            newline newline_star in
  let urn := _node_text py (Element.find obj "ObjectURN") in
  multiple ← single_multiple (_node_text py (Element.find obj "MultipleInstances"));
  mandatory ← optional_mandatory (_node_text py (Element.find obj "Mandatory"));
  Ok {| oid := oid; name := name; version := version; description := description;
        urn := urn; multiple := multiple; mandatory := mandatory;
        resources := resources |}.
End parsing.
End ObjectDef.

(** ** [generate_object_boilerplate] *)

Definition C_SINGLE_INST_TEMPLATE_FILENAME : string := "single_instance_template.c.jinja2".
Definition C_MULTIPLE_INSTS_TEMPLATE_FILENAME : string := "multiple_instances_template.c.jinja2".

(** The keyword arguments handed to the template. *)
Record template_args : Type := {
  obj : ObjectDef.t;
  transactional : bool;
  resource_instances : gmap Z Z;
  dynamic_resources_instances : bool;
  instances_number : option Z;
  dynamic_object_instances : bool;
  date_time : string
}.

(** The first loop: the caller's [(rid, count)] pairs go into the dict, a
    [rid] that is already a key raises. *)
Fixpoint collect_resource_instances
    (pairs : list (Z * Z)) (resource_instances_dict : gmap Z Z) : result (gmap Z Z) :=
  match pairs with
  | [] => Ok resource_instances_dict
  | (rid, count) :: pairs' =>
      match resource_instances_dict !! rid with
      | None => collect_resource_instances pairs' (<[rid := count]> resource_instances_dict)
      | Some _ => Raise ValueError
      end
  end.

(** The second loop: a multiple resource whose [rid] is not a key yet gets 2. *)
Fixpoint default_resource_instances
    (resources : list ResourceDef.t) (resource_instances_dict : gmap Z Z) : gmap Z Z :=
  match resources with
  | [] => resource_instances_dict
  | resource :: resources' =>
      default_resource_instances resources'
        (if ResourceDef.multiple resource
            && bool_decide (resource_instances_dict !! ResourceDef.rid resource = None)
         then <[ResourceDef.rid resource := 2]> resource_instances_dict
         else resource_instances_dict)
  end.

(** Lines 207-218: the dict the two loops leave, or the [ValueError]. *)
Definition resource_instances_dict
    (obj : ObjectDef.t) (resource_instances : option (list (Z * Z))) : result (gmap Z Z) :=
  collected ← collect_resource_instances (default [] resource_instances) ∅;
  Ok (default_resource_instances (ObjectDef.resources obj) collected).

(** The truth value of [n and test(n)] for an [int] or [None]: [None] and 0
    are false and [test] is not evaluated on them. *)
Definition and_then (n : option Z) (test : Z → bool) : bool :=
  match n with
  | None => false
  | Some z => negb (z =? 0) && test z
  end.

Section generator.
(** The template of that file name, rendered with the keyword arguments
    [template_args]; the templates are data files of the tool. *)
Variable render : string → template_args → result string.
(** [datetime.datetime.now().strftime('%Y-%m-%d %H:%M:%S')] *)
Variable now : string.

Definition generate_object_boilerplate
    (obj : ObjectDef.t) (instances_number : option Z) (transactional : bool)
    (resource_instances : option (list (Z * Z)))
    (dynamic_resources dynamic_instances : bool) : result (option string) :=
  resource_instances_dict ← resource_instances_dict obj resource_instances;
  let template_args :=
    {| obj := obj;
       transactional := transactional;
       resource_instances := resource_instances_dict;
       dynamic_resources_instances := dynamic_resources;
       instances_number := instances_number;
       dynamic_object_instances := dynamic_instances;
       date_time := now |} in
  if negb (ObjectDef.multiple obj) || and_then instances_number (λ n, n =? 1) then
    Some <$> render C_SINGLE_INST_TEMPLATE_FILENAME template_args
  else if and_then instances_number (λ n, 1 <? n) then
    Some <$> render C_MULTIPLE_INSTS_TEMPLATE_FILENAME template_args
  else Ok None.
End generator.

(** ** The command line *)

(** The namespace [parser.parse_args()] returns.  [instances_number] has
    [type=int] and [default=1], so it is an [int], never [None]. *)
Module Args.
Record t : Type := {
  input : option string;
  output : string;
  list_ : bool;
  resources : option (list Z);
  transactional : bool;
  instances_number : Z;
  dynamic_instances : bool;
  resources_instances_number : option (list (Z * Z));
  dynamic_resources_instances : bool
}.
End Args.

(** What [parse_args] does with [sys.argv]: it returns a namespace, or
    prints a message and exits by itself. *)
Inductive parse_outcome : Type :=
  | Parsed (args : Args.t)
  | ArgparseExit (status : Z).

(** What a run does to the outside, in order. *)
Inductive event : Type :=
  | PrintHelp
  | PrintUsage
  | StdinRead
  | FileOpenRead (path : string)
  | PrintResource (rid : Z) (name : string) (mandatory : bool)
  | PrintNote (name : string) (instances_number : Z)
  | PrintBoilerplate (text : string)
  | FileWrite (path : string) (text : string)
  | Traceback (e : exn).

Record run : Type := { trace : list event; status : Z }.

Definition is_read (e : event) : bool :=
  match e with
  | StdinRead | FileOpenRead _ => true
  | _ => false
  end.

Definition is_note (e : event) : bool :=
  match e with
  | PrintNote _ _ => true
  | _ => false
  end.


(** [str(x)] as [print] applies it to the boilerplate. *)
Definition py_str (x : option string) : string := default "None" x.

(** [n in range(lo, hi)] *)
Definition in_py_range (n lo hi : Z) : bool := (lo <=? n) && (n <? hi).

Section cli.
Context (py : builtins).
Variable render : string → template_args → result string.
Variable now : string.
(** [parser.parse_args()] *)
Variable parse_args : list string → parse_outcome.
(** [ElementTree.fromstring] *)
Variable fromstring : string → result Element.
(** The standard input and the files that can be opened for reading. *)
Variable stdin : string.
Variable files : string → option string.

(** Lines 284-307: from the object to the output. *)
Definition emit (args : Args.t) (obj : ObjectDef.t) : run :=
  if Args.list_ args then
    {| trace := (λ r, PrintResource (ResourceDef.rid r) (ResourceDef.name r)
                                    (ResourceDef.mandatory r))
                <$> ObjectDef.resources obj;
       status := 0 |}
  else
    let degrade := (1 <? Args.instances_number args) && negb (ObjectDef.multiple obj) in
    let note :=
      if degrade then [PrintNote (ObjectDef.name obj) (Args.instances_number args)]
      else [] in
    let instances_number := if degrade then 1 else Args.instances_number args in
    match generate_object_boilerplate render now obj (Some instances_number)
            (Args.transactional args) (Args.resources_instances_number args)
            (Args.dynamic_resources_instances args) (Args.dynamic_instances args) with
    | Raise e => {| trace := note ++ [Traceback e]; status := 1 |}
    | Ok boilerplate =>
        {| trace := note ++
             [if bool_decide (Args.output args = "-")
              then PrintBoilerplate (py_str boilerplate)
              else FileWrite (Args.output args) (py_str boilerplate)];
           status := 0 |}
    end.

(** Lines 270-282: the range check, the read and the parse. *)
Definition main_args (args : Args.t) : run :=
  match Args.input args with
  | None => {| trace := [PrintUsage]; status := 1 |}
  | Some input =>
      if negb (in_py_range (Args.instances_number args) 1 65535) then
        {| trace := [PrintUsage]; status := 1 |}
      else
        let '(read, input_source) :=
          if bool_decide (input = "-") then (StdinRead, Ok stdin)
          else (FileOpenRead input,
                match files input with
                | Some content => Ok content
                | None => Raise FileNotFoundError
                end) in
        let parsed :=
          input_source ← input_source;
          tree ← fromstring input_source;
          match Element.find tree "Object" with
          | None => Raise AttributeError
          | Some obj => ObjectDef.from_etree py obj (Args.resources args)
          end in
        match parsed with
        | Raise e => {| trace := [read; Traceback e]; status := 1 |}
        | Ok obj =>
            let r := emit args obj in
            {| trace := read :: trace r; status := status r |}
        end
  end.

(** The script: [sys.argv] holds the program name and the arguments. *)
Definition main (argv : list string) : run :=
  if bool_decide (length argv = 1%nat) then {| trace := [PrintHelp]; status := 1 |}
  else
    match parse_args argv with
    | ArgparseExit status => {| trace := []; status := status |}
    | Parsed args => main_args args
    end.
End cli.

Ltac by_cases_on_key :=
  unfold is_key, ResourceDef.type_enum_types, ResourceDef.union_res_value_field_types;
  cbn [assoc]; repeat case_bool_decide; try done.

(** ** Notions the properties are stated with *)

(** The object [o] with the resources [resources]. *)
Definition with_resources (o : ObjectDef.t) (resources : list ResourceDef.t) : ObjectDef.t :=
  {| ObjectDef.oid := ObjectDef.oid o; ObjectDef.name := ObjectDef.name o;
     ObjectDef.version := ObjectDef.version o;
     ObjectDef.description := ObjectDef.description o;
     ObjectDef.urn := ObjectDef.urn o; ObjectDef.multiple := ObjectDef.multiple o;
     ObjectDef.mandatory := ObjectDef.mandatory o; ObjectDef.resources := resources |}.

(** The arguments [args] with the instance count [n]. *)
Definition with_instances_number (args : Args.t) (n : Z) : Args.t :=
  {| Args.input := Args.input args; Args.output := Args.output args;
     Args.list_ := Args.list_ args; Args.resources := Args.resources args;
     Args.transactional := Args.transactional args;
     Args.instances_number := n;
     Args.dynamic_instances := Args.dynamic_instances args;
     Args.resources_instances_number := Args.resources_instances_number args;
     Args.dynamic_resources_instances := Args.dynamic_resources_instances args |}.



(** The operations [kind_enum] accepts. *)
Definition valid_operations : list string := ["R"; "W"; "RW"; "E"; "BS_RW"].

(** The order of [sorted]: by the key. *)
Definition key_le {A} (key : A → Z) (x y : A) : Prop := key x ≤ key y.

(** The resources an allow-list keeps; all of them without one. *)
Definition keep (resources_subset : option (list Z)) (items : list ResourceDef.t)
    : list ResourceDef.t :=
  match resources_subset with
  | Some subset => filter (λ r, ResourceDef.rid r ∈ subset) items
  | None => items
  end.

(** Whether a multiple resource of the list has the ID [k]. *)
Definition has_multiple (resources : list ResourceDef.t) (k : Z) : bool :=
  existsb (λ r, ResourceDef.multiple r && bool_decide (ResourceDef.rid r = k)) resources.

(** ** Sample data for the examples *)

Fixpoint decimal_digits (acc : Z) (s : string) : result Z :=
  match s with
  | EmptyString => Ok acc
  | String c rest =>
      match Ascii.is_nat c with
      | Some d => decimal_digits (10 * acc + Z.of_nat d) rest
      | None => Raise ValueError
      end
  end.

(** Builtins for texts of decimal digits, upper-case operations, lower-case
    types, without surrounding white space and shorter than a line, on
    which the methods change nothing. *)
Definition sample_builtins : builtins :=
  {| int := λ s, match s with
                 | EmptyString => Raise ValueError
                 | _ => decimal_digits 0 s
                 end;
     strip := id; upper := id; lower := id; fill := id;
     replace := λ s _ _, s |}.

(** A renderer that shows which template was asked for. *)
Definition sample_render (filename : string) (_ : template_args) : result string :=
  Ok filename.

Definition leaf (tag text : string) : Element := Elem tag [] (Some text) [].

Definition sample_item (id name operations multiple type : string) : Element :=
  Elem "Item" [("ID", id)] None
    [ leaf "Name" name; leaf "Operations" operations;
      leaf "MultipleInstances" multiple; leaf "Mandatory" "Mandatory";
      leaf "Type" type; Elem "RangeEnumeration" [] None [];
      Elem "Units" [] None []; leaf "Description" "" ].

(** A multiple-instance object whose resources come in the order 5, 1, 3. *)
Definition sample_object_node : Element :=
  Elem "Object" [("ObjectType", "MODefinition")] None
    [ leaf "Name" "Light Control"; leaf "Description1" "";
      leaf "ObjectID" "3311"; leaf "ObjectURN" "urn:oma:lwm2m:ext:3311";
      leaf "ObjectVersion" "1.0";
      leaf "MultipleInstances" "Multiple"; leaf "Mandatory" "Optional";
      Elem "Resources" [] None
        [ sample_item "5" "Levels" "RW" "Multiple" "integer";
          sample_item "1" "On/Off" "RW" "Single" "boolean";
          sample_item "3" "Dimmer" "RW" "Single" "integer" ] ].

Definition sample_tree : Element := Elem "LWM2M" [] None [sample_object_node].

Definition sample_resource (rid : Z) (name operations : string) (multiple : bool)
    (type : string) : ResourceDef.t :=
  {| ResourceDef.rid := rid; ResourceDef.name := name;
     ResourceDef.operations := operations; ResourceDef.multiple := multiple;
     ResourceDef.mandatory := true; ResourceDef.type := type;
     ResourceDef.range_enumeration := "N/A"; ResourceDef.units := "N/A";
     ResourceDef.description := "" |}.

Definition sample_object : ObjectDef.t :=
  {| ObjectDef.oid := 3311; ObjectDef.name := "Light Control";
     ObjectDef.version := "1.0"; ObjectDef.description := "";
     ObjectDef.urn := "urn:oma:lwm2m:ext:3311";
     ObjectDef.multiple := true; ObjectDef.mandatory := false;
     ObjectDef.resources :=
       [ sample_resource 1 "On/Off" "RW" false "boolean";
         sample_resource 3 "Dimmer" "RW" false "integer";
         sample_resource 5 "Levels" "RW" true "integer" ] |}.

Definition sample_single_object : ObjectDef.t :=
  {| ObjectDef.oid := 3; ObjectDef.name := "Device";
     ObjectDef.version := "1.2"; ObjectDef.description := "";
     ObjectDef.urn := "urn:oma:lwm2m:oma:3:1.2";
     ObjectDef.multiple := false; ObjectDef.mandatory := true;
     ObjectDef.resources := [ sample_resource 4 "Reboot" "E" false "n/a" ] |}.

Definition sample_args (instances_number : Z) : Args.t :=
  {| Args.input := Some "light.xml"; Args.output := "/dev/stdout";
     Args.list_ := false; Args.resources := None; Args.transactional := false;
     Args.instances_number := instances_number; Args.dynamic_instances := false;
     Args.resources_instances_number := None;
     Args.dynamic_resources_instances := false |}.

(** An object node with a well-formed item 1 and an item without an ID. *)
Definition sample_broken_node : Element :=
  Elem "Object" [] None
    [ leaf "Name" "Broken"; leaf "ObjectID" "9";
      leaf "MultipleInstances" "Single"; leaf "Mandatory" "Optional";
      Elem "Resources" [] None
        [ sample_item "1" "On/Off" "RW" "Single" "boolean";
          Elem "Item" [] None [leaf "Name" "No ID"] ] ].


(** A run of the script on [sample_tree], whatever the command line, with
    the arguments [args] as parsed. *)
Definition sample_main (args : Args.t) : run :=
  main sample_builtins sample_render "2025-01-01 00:00:00" (λ _, Parsed args)
       (λ _, Ok sample_tree) "" (λ _, Some "<LWM2M/>")
       ["anjay_codegen.py"; "-i"; "light.xml"].

(** * Properties *)

(** ** The identifier sanitizer *)

Example sanitize_on_off : _sanitize_identifier "On/Off" = Ok "On_Off".
Proof. reflexivity. Qed.

Example sanitize_leading_digit :
  _sanitize_identifier "3GPP  cell-id " = Ok "threeGPP_cell_id".
Proof. reflexivity. Qed.

Example sanitize_underscores : _sanitize_identifier "__a__b__" = Ok "a_b".
Proof. reflexivity. Qed.

Lemma underscore_not_alnum c : is_underscore c = true → is_alnum c = false.
Proof. by_cases_on_char c. Qed.

Lemma is_underscore_eq c : is_underscore c = true → c = "_"%char.
Proof. unfold is_underscore. by intros ?%Ascii.eqb_eq. Qed.

Lemma nonalphanum_sub_spaced b n : spaced b (nonalphanum_sub b n) = true.
Proof.
  revert b. induction n as [|c n IH]; intros b; simpl; [done|].
  destruct (is_alnum c) eqn:Hc; simpl.
  - by rewrite Hc.
  - destruct b; [done|]. simpl. by rewrite IH.
Qed.

Lemma spaced_lstrip s : spaced true s = true → lstrip_underscore s = s.
Proof.
  destruct s as [|c s]; simpl; [done|].
  destruct (is_alnum c) eqn:Hc.
  - destruct (is_underscore c) eqn:Hu; [|done].
    apply underscore_not_alnum in Hu. congruence.
  - rewrite andb_false_r. done.
Qed.

Lemma lstrip_spaced s : spaced false s = true → spaced true (lstrip_underscore s) = true.
Proof.
  destruct s as [|c s]; simpl; [done|].
  destruct (is_alnum c) eqn:Hc.
  - destruct (is_underscore c) eqn:Hu.
    { apply underscore_not_alnum in Hu. congruence. }
    simpl. by rewrite Hc.
  - intros [[Hu _]%andb_true_iff Hs]%andb_true_iff. rewrite Hu.
    by rewrite spaced_lstrip.
Qed.

Lemma rstrip_tidy b s :
  spaced b s = true →
  rstrip_underscore s = EmptyString ∨ tidy b (rstrip_underscore s) = true.
Proof.
  revert b. induction s as [|c s IH]; intros b; simpl; [by left|].
  destruct (is_alnum c) eqn:Hc.
  - intros Hs. right. destruct (IH _ Hs) as [->|Ht].
    + destruct (is_underscore c) eqn:Hu.
      { apply underscore_not_alnum in Hu. congruence. }
      simpl. by rewrite Hc.
    + destruct (rstrip_underscore s) eqn:Hr.
      * destruct (is_underscore c) eqn:Hu.
        { apply underscore_not_alnum in Hu. congruence. }
        simpl. by rewrite Hc.
      * simpl. rewrite Hc. done.
  - intros [[Hu Hb]%andb_true_iff Hs]%andb_true_iff.
    destruct (IH _ Hs) as [->|Ht].
    + rewrite Hu. by left.
    + right. destruct (rstrip_underscore s) eqn:Hr; [done|].
      change (tidy b (String c (String a s0)))
        with (if is_alnum c then tidy false (String a s0)
              else is_underscore c && negb b && tidy true (String a s0)).
      by rewrite Hc, Hu, Hb, Ht.
Qed.

Lemma strip_sub_tidy n :
  strip_underscore (nonalphanum_sub false n) = EmptyString ∨
  tidy true (strip_underscore (nonalphanum_sub false n)) = true.
Proof.
  unfold strip_underscore. apply rstrip_tidy, lstrip_spaced, nonalphanum_sub_spaced.
Qed.

Lemma tidy_sub b s : tidy b s = true → nonalphanum_sub b s = s.
Proof.
  revert b. induction s as [|c s IH]; intros b; simpl; [done|].
  destruct (is_alnum c) eqn:Hc.
  - intros Ht. by rewrite (IH _ Ht).
  - intros [[Hu Hb]%andb_true_iff Ht]%andb_true_iff.
    destruct b; [done|]. rewrite (IH _ Ht). by rewrite (is_underscore_eq _ Hu).
Qed.

Lemma tidy_spaced b s : tidy b s = true → spaced b s = true.
Proof.
  revert b. induction s as [|c s IH]; intros b; simpl; [done|].
  destruct (is_alnum c); [by apply IH|].
  intros [-> Ht]%andb_true_iff. by rewrite (IH _ Ht).
Qed.

Lemma tidy_rstrip b s : tidy b s = true → rstrip_underscore s = s.
Proof.
  revert b. induction s as [|c s IH]; intros b; simpl; [done|].
  destruct (is_alnum c) eqn:Hc.
  - intros Ht. rewrite (IH _ Ht). destruct s; [|done].
    destruct (is_underscore c) eqn:Hu; [|done].
    apply underscore_not_alnum in Hu. congruence.
  - intros [_ Ht]%andb_true_iff. rewrite (IH _ Ht). by destruct s.
Qed.

Lemma tidy_strip s : tidy true s = true → strip_underscore s = s.
Proof.
  intros Ht. unfold strip_underscore.
  rewrite (spaced_lstrip s) by by apply tidy_spaced.
  by apply (tidy_rstrip true).
Qed.

Lemma tidy_after_sep s : tidy true s = true → tidy false s = true.
Proof.
  destruct s as [|c s]; simpl; [done|].
  destruct (is_alnum c); [done|]. by rewrite andb_false_r.
Qed.

Lemma tidy_head c rest :
  tidy true (String c rest) = true → is_alnum c = true ∧ tidy false rest = true.
Proof. simpl. destruct (is_alnum c); [done|]. by rewrite andb_false_r. Qed.

Lemma tidy_all_chars b s :
  tidy b s = true → all_chars (λ c, is_alnum c || is_underscore c) s = true.
Proof.
  revert b. induction s as [|c s IH]; intros b; simpl; [done|].
  destruct (is_alnum c); simpl; [by apply IH|].
  intros [[-> _]%andb_true_iff Ht]%andb_true_iff. by apply (IH true).
Qed.

Lemma alpha_not_digit c : is_alpha c = true → is_digit c = false.
Proof. by_cases_on_char c. Qed.

Lemma alpha_alnum c : is_alpha c = true → is_alnum c = true.
Proof. by_cases_on_char c. Qed.

(** A character that is not a digit is not a key of [DIGIT_SPELLINGS]. *)
Lemma spelling_not_digit c default :
  is_digit c = false → dict_get DIGIT_SPELLINGS c default = default.
Proof. by_cases_on_char c. Qed.

(** The spelling of a letter or digit starts with a letter and holds only
    letters and digits. *)
Lemma spelling_alnum c :
  is_alnum c = true →
  ∃ c' w, dict_get DIGIT_SPELLINGS c (String c EmptyString) = String c' w
          ∧ is_alpha c' = true ∧ all_chars is_alnum w = true.
Proof.
  destruct c as [[] [] [] [] [] [] [] []]; intros H; vm_compute in H;
    try discriminate H; clear H;
    (eexists _, _; split; [reflexivity|split; vm_compute; reflexivity]).
Qed.

Lemma tidy_app_alnum b w rest :
  all_chars is_alnum w = true → w ≠ EmptyString → tidy false rest = true →
  tidy b (w +:+ rest) = true.
Proof.
  intros Hw Hne Hr. revert b Hne. induction w as [|c w IH]; intros b Hne; [done|].
  simpl in Hw. apply andb_true_iff in Hw as [Hc Hw'].
  change (tidy b (String c (w +:+ rest)) = true). simpl. rewrite Hc.
  destruct w as [|c2 w]; [done|]. by apply IH.
Qed.

(** What the sanitizer returns, when it returns: its argument with the runs
    replaced and the ends stripped was [String c0 rest], a letter or digit
    first, and the result is tidy and starts with a letter. *)
Lemma sanitize_returns n r :
  _sanitize_identifier n = Ok r →
  ∃ c' r', r = String c' r' ∧ is_alpha c' = true ∧ tidy true r = true.
Proof.
  unfold _sanitize_identifier.
  destruct (strip_sub_tidy n) as [->|Ht]; [done|].
  destruct (strip_underscore (nonalphanum_sub false n)) as [|c0 rest]; [done|].
  apply tidy_head in Ht as [Hc0 Hrest].
  destruct (spelling_alnum c0 Hc0) as (c' & w & Hsp & Hc' & Hw).
  rewrite Hsp. intros [= <-]. exists c', (w +:+ rest). split; [done|]. split; [done|].
  apply (tidy_app_alnum true (String c' w) rest); [|done..].
  simpl. by rewrite (alpha_alnum _ Hc'), Hw.
Qed.

(** C6: where the sanitizer returns, sanitizing its result returns the
    result again: [sanitize(sanitize(x)) == sanitize(x)]. *)
Theorem sanitize_identifier_idempotent (x r : string) :
  _sanitize_identifier x = Ok r → _sanitize_identifier r = Ok r.
Proof.
  intros (c' & r' & -> & Hc' & Ht)%sanitize_returns.
  unfold _sanitize_identifier.
  rewrite (tidy_sub false) by by apply tidy_after_sep.
  rewrite (tidy_strip _ Ht).
  by rewrite (spelling_not_digit c') by by apply alpha_not_digit.
Qed.

Lemma sanitize_identifier_idempotent_witness :
  _sanitize_identifier "3GPP  cell-id " = Ok "threeGPP_cell_id"
  ∧ _sanitize_identifier "threeGPP_cell_id" = Ok "threeGPP_cell_id".
Proof.
  split; [reflexivity|].
  apply (sanitize_identifier_idempotent "3GPP  cell-id "). reflexivity.
Defined.








(** C4: on the empty string, and on a name without any letter or digit,
    [identifier[0]] raises [IndexError]: no identifier is returned. *)
Theorem sanitize_identifier_empty_raises :
  _sanitize_identifier "" = Raise IndexError
  ∧ _sanitize_identifier "-- (%) --" = Raise IndexError.
Proof. split; reflexivity. Qed.

(** ** The model of the example document *)

Example sample_tree_parses :
  (Element.find sample_tree "Object" ≫= λ obj,
     Some (ObjectDef.from_etree sample_builtins obj None)) = Some (Ok sample_object).
Proof. vm_compute. reflexivity. Qed.

(** ** [ResourceDef.kind_enum] *)

Lemma valid_operations_contains_E ops :
  ops ∈ valid_operations → str_contains "E" ops = bool_decide (ops = "E").
Proof.
  unfold valid_operations. rewrite !elem_of_cons, elem_of_nil.
  intros [->|[->|[->|[->|[->|[]]]]]]; reflexivity.
Qed.

(** C3, as the claim states it, fails: ["E"] is one of the five operations,
    and the enum tag of a multiple resource with it is an [AssertionError]. *)
Lemma kind_enum_executable_multiple_raises :
  ResourceDef.operations (sample_resource 4 "Reset" "E" true "n/a") ∈ valid_operations
  ∧ ResourceDef.kind_enum (sample_resource 4 "Reset" "E" true "n/a") = Raise AssertionError.
Proof. split; [|reflexivity]. unfold valid_operations. set_solver. Qed.

(** C3, amended: [kind_enum] raises exactly when the operations are outside
    the five, or the resource is multiple and executable; on every other
    resource it returns the tag, with an [M] for a multiple resource. *)
Theorem kind_enum_raises_iff (r : ResourceDef.t) :
  (raises (ResourceDef.kind_enum r) = true
   ↔ ResourceDef.operations r ∉ valid_operations
     ∨ (ResourceDef.multiple r = true ∧ ResourceDef.operations r = "E"))
  ∧ (raises (ResourceDef.kind_enum r) = false →
     ResourceDef.kind_enum r =
       Ok ("ANJ_DM_RES_" +:+ ResourceDef.operations r
           +:+ (if ResourceDef.multiple r then "M" else ""))).
Proof.
  unfold ResourceDef.kind_enum. fold valid_operations.
  destruct (decide (ResourceDef.operations r ∈ valid_operations)) as [Hin|Hout].
  - rewrite (bool_decide_eq_true_2 _ Hin). simpl.
    rewrite (valid_operations_contains_E _ Hin).
    destruct (ResourceDef.multiple r); simpl.
    + case_bool_decide as HE; simpl.
      * split; [|done]. split; [auto|done].
      * split; [|done]. split; [done|]. intros [?|[_ ?]]; done.
    + split.
      * split; [done|]. intros [?|[? _]]; done.
      * intros _. f_equal. unfold valid_operations in Hin.
        rewrite !elem_of_cons, elem_of_nil in Hin.
        by destruct Hin as [->|[->|[->|[->|[->|[]]]]]].
  - rewrite (bool_decide_eq_false_2 _ Hout). simpl. split; [|done]. split; auto.
Qed.

(** ** [sorted] and [ObjectDef.parse_resources] *)

Section sorted.
Context {A : Type} (key : A → Z).

Lemma insert_by_Permutation x l : insert_by key x l ≡ₚ x :: l.
Proof.
  induction l as [|y l IH]; simpl; [done|].
  case_bool_decide; [done|]. rewrite IH. apply Permutation_swap.
Qed.

Lemma insert_by_sorted x l :
  StronglySorted (key_le key) l → StronglySorted (key_le key) (insert_by key x l).
Proof.
  induction 1 as [|y l Hl IH Hy]; simpl.
  { repeat constructor. }
  case_bool_decide as Hxy.
  - constructor; [by constructor|]. constructor; [done|].
    eapply Forall_impl; [done|]. unfold key_le. intros; simpl in *; lia.
  - constructor; [done|]. rewrite insert_by_Permutation.
    constructor; [|done]. unfold key_le. lia.
Qed.

Lemma sorted_Permutation l : sorted key l ≡ₚ l.
Proof.
  induction l as [|x l IH]; simpl; [done|].
  by rewrite insert_by_Permutation, IH.
Qed.

Lemma sorted_StronglySorted l : StronglySorted (key_le key) (sorted key l).
Proof.
  induction l as [|x l IH]; simpl; [constructor|]. by apply insert_by_sorted.
Qed.



Lemma filter_StronglySorted (P : A → Prop) `{!∀ x, Decision (P x)} l :
  StronglySorted (key_le key) l → StronglySorted (key_le key) (filter P l).
Proof.
  induction 1 as [|y l Hl IH Hy]; [constructor|].
  rewrite filter_cons. case_decide; [|done].
  constructor; [done|]. rewrite Forall_forall in *.
  intros x [_ Hx]%list_elem_of_filter. by apply Hy.
Qed.
End sorted.

Lemma bind_Ok {A B} (f : A → result B) (m : result A) (b : B) :
  m ≫= f = Ok b → ∃ a, m = Ok a ∧ f a = Ok b.
Proof. destruct m as [a|e]; [by exists a|done]. Qed.

Lemma from_etree_resources py obj resources_subset o :
  ObjectDef.from_etree py obj resources_subset = Ok o →
  ∃ resources, ObjectDef.parse_resources py obj = Ok resources
               ∧ ObjectDef.resources o = keep resources_subset resources.
Proof.
  unfold ObjectDef.from_etree.
  intros (resources & Hparse & H)%bind_Ok. exists resources. split; [done|].
  apply bind_Ok in H as (oid & _ & H).
  apply bind_Ok in H as (multiple & _ & H).
  apply bind_Ok in H as (mandatory & _ & H).
  by injection H as <-.
Qed.

(** C7: the resources of a parsed object are in ascending order of their
    IDs, with or without an allow-list, and they are the parsed items (those
    of the allow-list, when there is one) whatever their order in the
    document. *)
Theorem resources_sorted_by_rid
    (py : builtins) (obj : Element) (resources_subset : option (list Z)) (o : ObjectDef.t) :
  ObjectDef.from_etree py obj resources_subset = Ok o →
  StronglySorted (key_le ResourceDef.rid) (ObjectDef.resources o)
  ∧ ∃ rs items,
      Element.find obj "Resources" = Some rs
      ∧ mapM (ResourceDef.from_etree py) (Element.findall rs "Item") = Ok items
      ∧ ObjectDef.resources o ≡ₚ keep resources_subset items.
Proof.
  intros (resources & Hparse & ->)%from_etree_resources.
  unfold ObjectDef.parse_resources in Hparse.
  destruct (Element.find obj "Resources") as [rs|]; [|done].
  apply bind_Ok in Hparse as (items & Hitems & [= <-]).
  split.
  - destruct resources_subset as [subset|]; simpl.
    + apply filter_StronglySorted, sorted_StronglySorted.
    + apply sorted_StronglySorted.
  - exists rs, items. do 2 (split; [done|]).
    destruct resources_subset as [subset|]; simpl; by rewrite sorted_Permutation.
Qed.

Lemma resources_sorted_by_rid_witness :
  ResourceDef.rid <$> ObjectDef.resources sample_object = [1; 3; 5]
  ∧ StronglySorted (key_le ResourceDef.rid) (ObjectDef.resources sample_object).
Proof.
  split; [reflexivity|].
  apply (resources_sorted_by_rid sample_builtins sample_object_node None sample_object).
  vm_compute. reflexivity.
Defined.

Example resources_sorted_and_filtered :
  (λ o, ResourceDef.rid <$> ObjectDef.resources o)
    <$> ObjectDef.from_etree sample_builtins sample_object_node (Some [5; 7; 1])
  = Ok [1; 5].
Proof. vm_compute. reflexivity. Qed.

(** An allow-list without any ID of the object leaves no resource. *)
Example resources_all_filtered :
  ObjectDef.resources
    <$> ObjectDef.from_etree sample_builtins sample_object_node (Some [2; 4])
  = Ok [].
Proof. vm_compute. reflexivity. Qed.

(** The order of the IDs in the model does not depend on the order of the
    items in the document. *)
Lemma sorted_rids_order_independent (items items' : list ResourceDef.t) :
  items ≡ₚ items' →
  ResourceDef.rid <$> sorted ResourceDef.rid items
  = ResourceDef.rid <$> sorted ResourceDef.rid items'.
Proof.
  intros Hp.
  apply (StronglySorted_unique Z.le).
  - eapply StronglySorted_fmap, sorted_StronglySorted. done.
  - eapply StronglySorted_fmap, sorted_StronglySorted. done.
  - by rewrite !sorted_Permutation, Hp.
Qed.

(** ** The per-resource instance counts *)

(** The first loop returns exactly when no ID comes twice and none is a key
    already; the pairs are then added to the dict. *)
Lemma collect_resource_instances_Ok (pairs : list (Z * Z)) (d d' : gmap Z Z) :
  collect_resource_instances pairs d = Ok d' →
  NoDup pairs.*1
  ∧ (∀ rid, rid ∈ pairs.*1 → d !! rid = None)
  ∧ (∀ rid count, (rid, count) ∈ pairs → d' !! rid = Some count)
  ∧ (∀ rid, rid ∉ pairs.*1 → d' !! rid = d !! rid).
Proof.
  revert d. induction pairs as [|[rid count] pairs IH]; intros d; simpl.
  { intros [= <-]. split; [constructor|]. set_solver. }
  destruct (d !! rid) eqn:Hrid; [done|].
  intros (Hnd & Hfresh & Hin & Hout)%IH.
  assert (rid ∉ pairs.*1) as Hnotin.
  { intros Hrid'%Hfresh. by rewrite lookup_insert_eq in Hrid'. }
  split; [by constructor|]. split; [|split].
  - intros k [->|Hk]%elem_of_cons; [done|].
    specialize (Hfresh k Hk). rewrite lookup_insert_ne in Hfresh; [done|].
    intros <-. done.
  - intros k c [[= -> ->]|Hk]%elem_of_cons.
    + rewrite Hout by done. apply lookup_insert_eq.
    + by apply Hin.
  - intros k [Hne Hk]%not_elem_of_cons. rewrite Hout by done.
    by rewrite lookup_insert_ne.
Qed.

Lemma collect_resource_instances_Raise (pairs : list (Z * Z)) (d : gmap Z Z) e :
  collect_resource_instances pairs d = Raise e → e = ValueError.
Proof.
  revert d. induction pairs as [|[rid count] pairs IH]; intros d; simpl; [done|].
  destruct (d !! rid); [by intros [= <-]|]. apply IH.
Qed.

Lemma collect_resource_instances_repeated (pairs : list (Z * Z)) (d : gmap Z Z) :
  ¬ NoDup pairs.*1 → collect_resource_instances pairs d = Raise ValueError.
Proof.
  intros Hdup.
  destruct (collect_resource_instances pairs d) as [d'|e] eqn:Hc.
  - by apply collect_resource_instances_Ok in Hc as [? _].
  - by apply collect_resource_instances_Raise in Hc as ->.
Qed.

Lemma has_multiple_true resources k :
  has_multiple resources k = true
  ↔ ∃ r, r ∈ resources ∧ ResourceDef.multiple r = true ∧ ResourceDef.rid r = k.
Proof.
  unfold has_multiple. rewrite existsb_exists. split.
  - intros (r & Hr%list_elem_of_In & [Hm Hk%bool_decide_eq_true]%andb_true_iff). eauto.
  - intros (r & Hr%list_elem_of_In & Hm & Hk). exists r. split; [done|].
    rewrite Hm. by apply bool_decide_eq_true.
Qed.

(** The second loop leaves the keys of the dict as they are and gives 2 to
    the other IDs of multiple resources. *)
Lemma default_resource_instances_lookup (resources : list ResourceDef.t) (d : gmap Z Z) k :
  default_resource_instances resources d !! k =
    match d !! k with
    | Some count => Some count
    | None => if has_multiple resources k then Some 2 else None
    end.
Proof.
  revert d. induction resources as [|r resources IH]; intros d.
  { simpl. by destruct (d !! k). }
  cbn [default_resource_instances has_multiple existsb]. fold (has_multiple resources k).
  rewrite IH. clear IH.
  destruct (ResourceDef.multiple r) eqn:Hm; cbn [andb orb]; [|done].
  case_bool_decide as Hr.
  - destruct (decide (ResourceDef.rid r = k)) as [<-|Hne].
    + by rewrite lookup_insert_eq, Hr, bool_decide_eq_true_2.
    + rewrite lookup_insert_ne by done. by rewrite bool_decide_eq_false_2.
  - destruct (d !! k) eqn:Hk; [done|].
    rewrite bool_decide_eq_false_2; [done|]. intros <-. done.
Qed.

(** C9: in the resolved mapping every explicit override has its value,
    every multiple resource without an override has 2, and an ID that has no
    override and belongs to single-instance resources only has no entry. *)
Theorem resource_instances_dict_resolved
    (obj : ObjectDef.t) (resource_instances : option (list (Z * Z))) (d : gmap Z Z) :
  resource_instances_dict obj resource_instances = Ok d →
  (∀ rid count, (rid, count) ∈ default [] resource_instances → d !! rid = Some count)
  ∧ (∀ r, r ∈ ObjectDef.resources obj → ResourceDef.multiple r = true →
          ResourceDef.rid r ∉ (default [] resource_instances).*1 →
          d !! ResourceDef.rid r = Some 2)
  ∧ (∀ rid, rid ∉ (default [] resource_instances).*1 →
            (∀ r, r ∈ ObjectDef.resources obj → ResourceDef.rid r = rid →
                  ResourceDef.multiple r = false) →
            d !! rid = None).
Proof.
  unfold resource_instances_dict.
  intros (d0 & (Hnd & _ & Hin & Hout)%collect_resource_instances_Ok & [= <-])%bind_Ok.
  split; [|split].
  - intros rid count Hrid. rewrite default_resource_instances_lookup.
    by rewrite (Hin _ _ Hrid).
  - intros r Hr Hm Hrid. rewrite default_resource_instances_lookup.
    rewrite (Hout _ Hrid), lookup_empty.
    replace (has_multiple (ObjectDef.resources obj) (ResourceDef.rid r)) with true; [done|].
    symmetry. apply has_multiple_true. eauto.
  - intros rid Hrid Hsingle. rewrite default_resource_instances_lookup.
    rewrite (Hout _ Hrid), lookup_empty.
    destruct (has_multiple (ObjectDef.resources obj) rid) eqn:Hhas; [|done].
    apply has_multiple_true in Hhas as (r & Hr & Hm & Heq).
    specialize (Hsingle r Hr Heq). congruence.
Qed.

Lemma resource_instances_dict_resolved_witness :
  ∃ d, resource_instances_dict sample_object (Some [(3, 4)]) = Ok d
       ∧ d !! 3 = Some 4 ∧ d !! 5 = Some 2 ∧ d !! 1 = None.
Proof.
  exists (default_resource_instances (ObjectDef.resources sample_object) (<[3:=4]> ∅)).
  split; [reflexivity|].
  destruct (resource_instances_dict_resolved sample_object (Some [(3, 4)]) _ eq_refl)
    as (Hoverride & Hdefault & Hnone).
  split; [|split].
  - apply Hoverride. simpl. apply list_elem_of_here.
  - apply (Hdefault (sample_resource 5 "Levels" "RW" true "integer")).
    + simpl. rewrite !elem_of_cons. auto.
    + reflexivity.
    + simpl. rewrite elem_of_cons, elem_of_nil. intros [[=]|[]].
  - apply Hnone.
    + simpl. rewrite elem_of_cons, elem_of_nil. intros [[=]|[]].
    + intros r Hr Hrid. simpl in Hr.
      rewrite !elem_of_cons, elem_of_nil in Hr.
      destruct Hr as [->|[->|[->|[]]]]; [reflexivity|discriminate Hrid..].
Defined.

(** C10: an override list that names a resource ID more than once makes
    the generation raise [ValueError], whatever the counts are, the same
    ones included. *)
Theorem repeated_resource_id_raises
    (render : string → template_args → result string) (now : string)
    (obj : ObjectDef.t) (instances_number : option Z) (transactional : bool)
    (pairs : list (Z * Z)) (dynamic_resources dynamic_instances : bool) :
  ¬ NoDup pairs.*1 →
  generate_object_boilerplate render now obj instances_number transactional
    (Some pairs) dynamic_resources dynamic_instances = Raise ValueError.
Proof.
  intros Hdup. unfold generate_object_boilerplate, resource_instances_dict. simpl.
  by rewrite collect_resource_instances_repeated.
Qed.

Lemma repeated_resource_id_raises_witness :
  generate_object_boilerplate sample_render "2025-01-01 00:00:00" sample_object
    (Some 3) false (Some [(7, 3); (7, 3)]) false false = Raise ValueError.
Proof.
  apply repeated_resource_id_raises. simpl.
  intros [Hnotin _]%NoDup_cons. apply Hnotin. set_solver.
Defined.

(** Conflicting counts for one ID raise as well. *)
Example conflicting_resource_id_raises :
  generate_object_boilerplate sample_render "2025-01-01 00:00:00" sample_object
    (Some 3) false (Some [(7, 3); (7, 5)]) false false = Raise ValueError.
Proof. reflexivity. Qed.

(** ** The choice of the template *)

(** C1, as the claim states it, fails: a run for a multiple-instance object
    and one instance writes the single-instance skeleton and prints no
    note. *)
Lemma one_instance_prints_no_note :
  ObjectDef.multiple sample_object = true
  ∧ Args.instances_number (sample_args 1) = 1
  ∧ sample_main (sample_args 1)
    = {| trace := [ FileOpenRead "light.xml";
                    FileWrite "/dev/stdout" C_SINGLE_INST_TEMPLATE_FILENAME ];
         status := 0 |}.
Proof. split; [|split]; vm_compute; reflexivity. Qed.

Lemma list_prints_no_note (resources : list ResourceDef.t) :
  existsb is_note
    ((λ r, PrintResource (ResourceDef.rid r) (ResourceDef.name r) (ResourceDef.mandatory r))
       <$> resources) = false.
Proof. induction resources as [|r resources IH]; simpl; done. Qed.

(** C1, amended: for a multiple-instance object and exactly one instance
    the single-instance template is rendered, and the run prints no note. *)
Theorem one_instance_selects_single_template
    (render : string → template_args → result string) (now : string)
    (args : Args.t) (o : ObjectDef.t) (transactional : bool)
    (resource_instances : option (list (Z * Z)))
    (dynamic_resources dynamic_instances : bool) :
  ObjectDef.multiple o = true →
  Args.instances_number args = 1 →
  generate_object_boilerplate render now o (Some 1) transactional resource_instances
    dynamic_resources dynamic_instances
  = (d ← resource_instances_dict o resource_instances;
     Some <$> render C_SINGLE_INST_TEMPLATE_FILENAME
       {| obj := o; transactional := transactional; resource_instances := d;
          dynamic_resources_instances := dynamic_resources;
          instances_number := Some 1;
          dynamic_object_instances := dynamic_instances; date_time := now |})
  ∧ existsb is_note (trace (emit render now args o)) = false.
Proof.
  intros Hm Hn. split.
  - unfold generate_object_boilerplate. by rewrite Hm.
  - unfold emit. rewrite Hm, Hn. simpl.
    destruct (Args.list_ args); simpl; [apply list_prints_no_note|].
    destruct (generate_object_boilerplate _ _ _ _ _ _ _ _); simpl; [|done].
    by case_bool_decide.
Qed.

Lemma one_instance_selects_single_template_witness :
  generate_object_boilerplate sample_render "2025-01-01 00:00:00" sample_object
    (Some 1) false None false false = Ok (Some C_SINGLE_INST_TEMPLATE_FILENAME)
  ∧ existsb is_note
      (trace (emit sample_render "2025-01-01 00:00:00" (sample_args 1) sample_object))
    = false.
Proof.
  destruct (one_instance_selects_single_template sample_render "2025-01-01 00:00:00"
              (sample_args 1) sample_object false None false false eq_refl eq_refl)
    as [Hsingle Hnote].
  split; [|exact Hnote]. rewrite Hsingle. vm_compute. reflexivity.
Defined.

(** The note is for the other mismatch: more than one instance asked of an
    object that is not multiple-instance. *)
Example three_instances_of_single_object_prints_note :
  emit sample_render "2025-01-01 00:00:00" (sample_args 3) sample_single_object
  = {| trace := [ PrintNote "Device" 3;
                  FileWrite "/dev/stdout" C_SINGLE_INST_TEMPLATE_FILENAME ];
       status := 0 |}.
Proof. vm_compute. reflexivity. Qed.

(** C2, as the claim states it, fails: with the dynamic-instances flag set
    and an instance count that is 0 or absent, no template is chosen. *)
Lemma dynamic_instances_flag_selects_nothing :
  ObjectDef.multiple sample_object = true
  ∧ generate_object_boilerplate sample_render "2025-01-01 00:00:00" sample_object
      (Some 0) false None false true = Ok None
  ∧ generate_object_boilerplate sample_render "2025-01-01 00:00:00" sample_object
      None false None false true = Ok None.
Proof. split; [|split]; vm_compute; reflexivity. Qed.

(** C2, amended: for a multiple-instance object and an instance count
    greater than 1 the multiple-instances template is rendered, with the
    dynamic-instances flag set or not. *)
Theorem more_instances_select_multiple_template
    (render : string → template_args → result string) (now : string)
    (o : ObjectDef.t) (n : Z) (transactional : bool)
    (resource_instances : option (list (Z * Z)))
    (dynamic_resources dynamic_instances : bool) :
  ObjectDef.multiple o = true →
  1 < n →
  generate_object_boilerplate render now o (Some n) transactional resource_instances
    dynamic_resources dynamic_instances
  = (d ← resource_instances_dict o resource_instances;
     Some <$> render C_MULTIPLE_INSTS_TEMPLATE_FILENAME
       {| obj := o; transactional := transactional; resource_instances := d;
          dynamic_resources_instances := dynamic_resources;
          instances_number := Some n;
          dynamic_object_instances := dynamic_instances; date_time := now |}).
Proof.
  intros Hm Hn. unfold generate_object_boilerplate. rewrite Hm. simpl.
  replace (n =? 0) with false by lia. replace (n =? 1) with false by lia.
  replace (1 <? n) with true by lia. done.
Qed.

Lemma more_instances_select_multiple_template_witness :
  generate_object_boilerplate sample_render "2025-01-01 00:00:00" sample_object
    (Some 3) false None false true = Ok (Some C_MULTIPLE_INSTS_TEMPLATE_FILENAME)
  ∧ generate_object_boilerplate sample_render "2025-01-01 00:00:00" sample_object
      (Some 3) false None false false = Ok (Some C_MULTIPLE_INSTS_TEMPLATE_FILENAME).
Proof.
  split.
  - rewrite more_instances_select_multiple_template; [|reflexivity|lia].
    vm_compute. reflexivity.
  - vm_compute. reflexivity.
Defined.

(** Without a template to choose, the function falls off its end. *)
Lemma no_template_returns_None
    (render : string → template_args → result string) (now : string)
    (o : ObjectDef.t) (instances_number : option Z) (transactional : bool)
    (resource_instances : option (list (Z * Z)))
    (dynamic_resources dynamic_instances : bool) :
  ObjectDef.multiple o = true →
  and_then instances_number (λ n, n =? 1) = false →
  and_then instances_number (λ n, 1 <? n) = false →
  generate_object_boilerplate render now o instances_number transactional
    resource_instances dynamic_resources dynamic_instances
  = (_ ← resource_instances_dict o resource_instances; Ok None).
Proof.
  intros Hm H1 H2. unfold generate_object_boilerplate. by rewrite Hm, H1, H2.
Qed.

(** C5: for a multiple-instance object, an instance count of 0, a
    negative one or none, without the dynamic-instances flag, the
    generation raises nothing and returns [None]. *)
Theorem ambiguous_cardinality_returns_None :
  ObjectDef.multiple sample_object = true
  ∧ generate_object_boilerplate sample_render "2025-01-01 00:00:00" sample_object
      (Some 0) false None false false = Ok None
  ∧ generate_object_boilerplate sample_render "2025-01-01 00:00:00" sample_object
      (Some (-2)) false None false false = Ok None
  ∧ generate_object_boilerplate sample_render "2025-01-01 00:00:00" sample_object
      None false None false false = Ok None.
Proof. split; [|split; [|split]]; vm_compute; reflexivity. Qed.

(** ** The command line *)

Lemma in_py_range_iff n lo hi : in_py_range n lo hi = true ↔ lo ≤ n < hi.
Proof. unfold in_py_range. rewrite andb_true_iff, Z.leb_le, Z.ltb_lt. done. Qed.

(** C8: when the instance count of the command line is outside 1..65534
    the run ends with status 1 and has read nothing; when it is inside,
    1 and 65534 included, and an input is named, the run goes on to read
    it. *)
Theorem instances_number_range_checked
    (py : builtins) (render : string → template_args → result string) (now : string)
    (parse_args : list string → parse_outcome) (fromstring : string → result Element)
    (stdin : string) (files : string → option string)
    (argv : list string) (args : Args.t) :
  parse_args argv = Parsed args →
  (¬ (1 ≤ Args.instances_number args ≤ 65534) →
   status (main py render now parse_args fromstring stdin files argv) = 1
   ∧ existsb is_read (trace (main py render now parse_args fromstring stdin files argv))
     = false)
  ∧ (1 ≤ Args.instances_number args ≤ 65534 →
     length argv ≠ 1%nat →
     ∀ input, Args.input args = Some input →
     ∃ rest,
       trace (main py render now parse_args fromstring stdin files argv)
       = (if bool_decide (input = "-") then StdinRead else FileOpenRead input) :: rest).
Proof.
  intros Hparse. unfold main. rewrite Hparse. split.
  - intros Hout. case_bool_decide; [done|]. unfold main_args.
    destruct (Args.input args) as [input|]; [|done].
    destruct (in_py_range (Args.instances_number args) 1 65535) eqn:Hin; [|done].
    apply in_py_range_iff in Hin. lia.
  - intros Hin Hargv input Hinput. rewrite bool_decide_eq_false_2 by done.
    unfold main_args. rewrite Hinput.
    replace (in_py_range (Args.instances_number args) 1 65535) with true
      by (symmetry; apply in_py_range_iff; lia).
    cbn [negb]. case_bool_decide.
    + destruct (_ ≫= _); eexists; reflexivity.
    + destruct (_ ≫= _); eexists; reflexivity.
Qed.

Lemma instances_number_range_checked_witness :
  (status (sample_main (sample_args 70000)) = 1
   ∧ existsb is_read (trace (sample_main (sample_args 70000))) = false)
  ∧ (∃ rest, trace (sample_main (sample_args 1)) = FileOpenRead "light.xml" :: rest)
  ∧ (∃ rest, trace (sample_main (sample_args 65534)) = FileOpenRead "light.xml" :: rest).
Proof.
  pose proof (λ n, instances_number_range_checked sample_builtins sample_render
                     "2025-01-01 00:00:00" (λ _, Parsed (sample_args n))
                     (λ _, Ok sample_tree) "" (λ _, Some "<LWM2M/>")
                     ["anjay_codegen.py"; "-i"; "light.xml"] (sample_args n) eq_refl)
    as Hrange.
  split; [|split].
  - apply (proj1 (Hrange 70000)). simpl. lia.
  - destruct (proj2 (Hrange 1)) with (input := "light.xml") as [rest Hrest];
      [simpl; lia|done|reflexivity|].
    exists rest. exact Hrest.
  - destruct (proj2 (Hrange 65534)) with (input := "light.xml") as [rest Hrest];
      [simpl; lia|done|reflexivity|].
    exists rest. exact Hrest.
Defined.

Example instances_number_70000 :
  sample_main (sample_args 70000) = {| trace := [PrintUsage]; status := 1 |}.
Proof. vm_compute. reflexivity. Qed.

(** Zero and 65535 are refused as well. *)
Example instances_number_bounds :
  sample_main (sample_args 0) = {| trace := [PrintUsage]; status := 1 |}
  ∧ sample_main (sample_args 65535) = {| trace := [PrintUsage]; status := 1 |}.
Proof. split; vm_compute; reflexivity. Qed.

(** * Further properties *)

(** ** The identifier sanitizer, continued *)


(** A tidy string that starts with a letter goes through the sanitizer
    unchanged. *)
Lemma sanitize_tidy s :
  tidy true s = true → valid_identifier s = true → _sanitize_identifier s = Ok s.
Proof.
  intros Ht Hv. unfold _sanitize_identifier.
  rewrite (tidy_sub false) by by apply tidy_after_sep.
  rewrite (tidy_strip _ Ht).
  destruct s as [|c rest]; [done|]. simpl in Hv.
  apply andb_true_iff in Hv as [[Hc|Hu]%orb_true_iff _].
  - by rewrite (spelling_not_digit c) by by apply alpha_not_digit.
  - apply tidy_head in Ht as [Hc _]. apply underscore_not_alnum in Hu. congruence.
Qed.

(** X3: a name that starts with a letter and goes on with letters, digits
    and single underscores, the last character not an underscore, is
    returned as it is. *)
Theorem sanitize_identifier_clean_unchanged (c : ascii) (rest : string) :
  is_alpha c = true → tidy false rest = true →
  _sanitize_identifier (String c rest) = Ok (String c rest).
Proof.
  intros Hc Hrest. apply sanitize_tidy.
  - simpl. by rewrite (alpha_alnum _ Hc).
  - simpl. rewrite Hc. simpl. by apply (tidy_all_chars false).
Qed.

Lemma sanitize_identifier_clean_unchanged_witness :
  _sanitize_identifier "res_inst_2_count" = Ok "res_inst_2_count".
Proof. apply sanitize_identifier_clean_unchanged; reflexivity. Defined.

Lemma tidy_no_double_underscore b s :
  tidy b s = true → str_contains "__" s = false.
Proof.
  revert b. induction s as [|c s IH]; intros b; [done|].
  cbn [tidy str_contains startswith].
  destruct (is_alnum c) eqn:Hc.
  - intros Ht. rewrite (IH _ Ht), orb_false_r.
    destruct (Ascii.eqb_spec "_" c) as [<-|]; [done|done].
  - intros [_ Ht]%andb_true_iff. rewrite (IH _ Ht), orb_false_r.
    destruct s as [|c2 s]; [done|].
    apply tidy_head in Ht as [Hc2 _]. cbn [startswith].
    destruct (Ascii.eqb_spec "_" c2) as [<-|]; [done|]. by rewrite andb_false_r.
Qed.

(** X4: an identifier the sanitizer returns has no two underscores in a
    row and none at either end. *)
Theorem sanitize_identifier_underscores (n r : string) :
  _sanitize_identifier n = Ok r →
  str_contains "__" r = false
  ∧ lstrip_underscore r = r
  ∧ rstrip_underscore r = r.
Proof.
  intros (c' & r' & -> & Hc' & Ht)%sanitize_returns. split; [|split].
  - by apply (tidy_no_double_underscore true).
  - by apply spaced_lstrip, tidy_spaced.
  - by apply (tidy_rstrip true).
Qed.

Lemma sanitize_identifier_underscores_witness :
  str_contains "__" "a_b" = false
  ∧ lstrip_underscore "a_b" = "a_b"
  ∧ rstrip_underscore "a_b" = "a_b".
Proof. apply (sanitize_identifier_underscores "__a -- b__"). reflexivity. Defined.

Lemma str_filter_app p s1 s2 :
  str_filter p (s1 +:+ s2) = str_filter p s1 +:+ str_filter p s2.
Proof.
  induction s1 as [|c s1 IH]; [done|].
  change (String c s1 +:+ s2) with (String c (s1 +:+ s2)). simpl.
  rewrite IH. by destruct (p c).
Qed.

Lemma str_filter_all p s : all_chars p s = true → str_filter p s = s.
Proof.
  induction s as [|c s IH]; simpl; [done|].
  intros [-> Hs]%andb_true_iff. by rewrite IH.
Qed.

Lemma str_filter_sub b n :
  str_filter is_alnum (nonalphanum_sub b n) = str_filter is_alnum n.
Proof.
  revert b. induction n as [|c n IH]; intros b; simpl; [done|].
  destruct (is_alnum c) eqn:Hc; simpl.
  - by rewrite Hc, IH.
  - destruct b; simpl; by rewrite IH.
Qed.

Lemma str_filter_lstrip s :
  str_filter is_alnum (lstrip_underscore s) = str_filter is_alnum s.
Proof.
  induction s as [|c s IH]; simpl; [done|].
  destruct (is_underscore c) eqn:Hu; [|done].
  by rewrite IH, (underscore_not_alnum _ Hu).
Qed.

Lemma str_filter_rstrip s :
  str_filter is_alnum (rstrip_underscore s) = str_filter is_alnum s.
Proof.
  induction s as [|c s IH]; simpl; [done|].
  destruct (rstrip_underscore s) as [|c2 s2]; simpl in *.
  - rewrite <-IH. destruct (is_underscore c) eqn:Hu.
    + by rewrite (underscore_not_alnum _ Hu).
    + simpl. by destruct (is_alnum c).
  - by rewrite <-IH.
Qed.

(** X5: the sanitizer keeps the letters and digits of the name, in their
    order, and spells the first of them when it is a digit; it raises
    nothing when there is one. *)
Theorem sanitize_identifier_keeps_alnum (n : string) (c0 : ascii) (rest : string) :
  str_filter is_alnum n = String c0 rest →
  ∃ r, _sanitize_identifier n = Ok r
       ∧ str_filter is_alnum r
         = dict_get DIGIT_SPELLINGS c0 (String c0 EmptyString) +:+ rest.
Proof.
  intros Hn. unfold _sanitize_identifier.
  assert (str_filter is_alnum (strip_underscore (nonalphanum_sub false n))
          = String c0 rest) as Hid.
  { unfold strip_underscore.
    by rewrite str_filter_rstrip, str_filter_lstrip, str_filter_sub. }
  destruct (strip_sub_tidy n) as [He|Ht]; [by rewrite He in Hid|].
  destruct (strip_underscore (nonalphanum_sub false n)) as [|c1 rest1]; [done|].
  apply tidy_head in Ht as [Hc1 _]. simpl in Hid. rewrite Hc1 in Hid.
  injection Hid as -> <-. eexists. split; [done|].
  rewrite str_filter_app. f_equal.
  destruct (spelling_alnum c0 Hc1) as (c' & w & -> & Hc' & Hw).
  apply str_filter_all. simpl. by rewrite (alpha_alnum _ Hc'), Hw.
Qed.

Lemma sanitize_identifier_keeps_alnum_witness :
  ∃ r, _sanitize_identifier "3GPP  cell-id " = Ok r
       ∧ str_filter is_alnum r = "threeGPPcellid".
Proof.
  apply (sanitize_identifier_keeps_alnum "3GPP  cell-id " "3" "GPPcellid").
  reflexivity.
Defined.

(** ** The name views *)

Lemma ascii_lower_classes c :
  is_alnum (ascii_lower c) = is_alnum c
  ∧ is_alpha (ascii_lower c) = is_alpha c
  ∧ is_underscore (ascii_lower c) = is_underscore c
  ∧ is_upper (ascii_lower c) = false.
Proof. by_cases_on_char c. Qed.

Lemma ascii_upper_classes c :
  is_alnum (ascii_upper c) = is_alnum c
  ∧ is_alpha (ascii_upper c) = is_alpha c
  ∧ is_underscore (ascii_upper c) = is_underscore c
  ∧ is_lower (ascii_upper c) = false.
Proof. by_cases_on_char c. Qed.

Lemma ascii_upper_lower c :
  ascii_upper (ascii_lower c) = ascii_upper c
  ∧ ascii_lower (ascii_upper c) = ascii_lower c
  ∧ ascii_lower (ascii_lower c) = ascii_lower c.
Proof. by_cases_on_char c. Qed.

Lemma ascii_upper_alpha c : is_alpha c = true → is_upper (ascii_upper c) = true.
Proof. by_cases_on_char c. Qed.

Section str_map.
Context (f : ascii → ascii).
Hypothesis f_alnum : ∀ c, is_alnum (f c) = is_alnum c.
Hypothesis f_alpha : ∀ c, is_alpha (f c) = is_alpha c.
Hypothesis f_underscore : ∀ c, is_underscore (f c) = is_underscore c.

Lemma tidy_str_map b s : tidy b (str_map f s) = tidy b s.
Proof.
  revert b. induction s as [|c s IH]; intros b; simpl; [done|].
  by rewrite f_alnum, f_underscore, !IH.
Qed.

Lemma valid_identifier_str_map s :
  valid_identifier (str_map f s) = valid_identifier s.
Proof.
  destruct s as [|c s]; simpl; [done|].
  rewrite f_alpha, f_underscore. f_equal.
  induction s as [|c2 s IH]; simpl; [done|].
  by rewrite f_alnum, f_underscore, IH.
Qed.
End str_map.

Lemma tidy_str_lower b s : tidy b (str_lower s) = tidy b s.
Proof. apply tidy_str_map; intros c; apply ascii_lower_classes. Qed.

Lemma tidy_str_upper b s : tidy b (str_upper s) = tidy b s.
Proof. apply tidy_str_map; intros c; apply ascii_upper_classes. Qed.

Lemma valid_identifier_str_lower s : valid_identifier (str_lower s) = valid_identifier s.
Proof. apply valid_identifier_str_map; intros c; apply ascii_lower_classes. Qed.

Lemma valid_identifier_str_upper s : valid_identifier (str_upper s) = valid_identifier s.
Proof. apply valid_identifier_str_map; intros c; apply ascii_upper_classes. Qed.

Lemma str_lower_no_upper s : all_chars (λ c, negb (is_upper c)) (str_lower s) = true.
Proof.
  unfold str_lower. induction s as [|c s IH]; simpl; [done|].
  by rewrite (proj2 (proj2 (proj2 (ascii_lower_classes c)))), IH.
Qed.

Lemma str_upper_no_lower s : all_chars (λ c, negb (is_lower c)) (str_upper s) = true.
Proof.
  unfold str_upper. induction s as [|c s IH]; simpl; [done|].
  by rewrite (proj2 (proj2 (proj2 (ascii_upper_classes c)))), IH.
Qed.

Lemma str_upper_lower s : str_upper (str_lower s) = str_upper s.
Proof.
  unfold str_upper, str_lower. induction s as [|c s IH]; simpl; [done|].
  by rewrite (proj1 (ascii_upper_lower c)), IH.
Qed.

(** What the sanitizer returns is tidy and an identifier. *)
Lemma sanitize_returns_tidy n r :
  _sanitize_identifier n = Ok r → tidy true r = true ∧ valid_identifier r = true.
Proof.
  intros (c' & r' & -> & Hc' & Ht)%sanitize_returns. split; [done|].
  simpl. rewrite Hc'. simpl. apply tidy_head in Ht as [_ Ht].
  by apply (tidy_all_chars false).
Qed.

(** X6: [name_snake], of an object or of a resource, is when it returns an
    identifier without upper-case letters, and the sanitizer leaves it as
    it is. *)
Theorem name_snake_lower_identifier :
  (∀ (o : ObjectDef.t) (s : string),
     ObjectDef.name_snake o = Ok s →
     valid_identifier s = true
     ∧ all_chars (λ c, negb (is_upper c)) s = true
     ∧ _sanitize_identifier s = Ok s)
  ∧ (∀ (r : ResourceDef.t) (s : string),
       ResourceDef.name_snake r = Ok s →
       valid_identifier s = true
       ∧ all_chars (λ c, negb (is_upper c)) s = true
       ∧ _sanitize_identifier s = Ok s).
Proof.
  assert (∀ name s, str_lower <$> _sanitize_identifier name = Ok s →
            valid_identifier s = true
            ∧ all_chars (λ c, negb (is_upper c)) s = true
            ∧ _sanitize_identifier s = Ok s) as Hsnake.
  { intros name s Hs.
    destruct (_sanitize_identifier name) as [r|] eqn:Hr; [|done].
    injection Hs as <-. apply sanitize_returns_tidy in Hr as [Ht Hv].
    split; [by rewrite valid_identifier_str_lower|].
    split; [apply str_lower_no_upper|].
    apply sanitize_tidy; [by rewrite tidy_str_lower|by rewrite valid_identifier_str_lower]. }
  split; intros ? s; apply Hsnake.
Qed.

Lemma name_snake_lower_identifier_witness :
  ObjectDef.name_snake sample_object = Ok "light_control"
  ∧ valid_identifier "light_control" = true
  ∧ all_chars (λ c, negb (is_upper c)) "light_control" = true
  ∧ _sanitize_identifier "light_control" = Ok "light_control".
Proof.
  split; [reflexivity|].
  apply (proj1 name_snake_lower_identifier sample_object). reflexivity.
Defined.

(** X7: the second sanitization in [ObjectDef.name_upper] changes nothing:
    [name_upper] is the sanitized name in upper case, an identifier without
    lower-case letters, and it raises exactly when [name_snake] does. *)
Theorem object_name_upper (o : ObjectDef.t) :
  ObjectDef.name_upper o = str_upper <$> _sanitize_identifier (ObjectDef.name o)
  ∧ (∀ s, ObjectDef.name_upper o = Ok s →
          valid_identifier s = true ∧ all_chars (λ c, negb (is_lower c)) s = true).
Proof.
  assert (ObjectDef.name_upper o
          = str_upper <$> _sanitize_identifier (ObjectDef.name o)) as Heq.
  { unfold ObjectDef.name_upper, ObjectDef.name_snake.
    destruct (_sanitize_identifier (ObjectDef.name o)) as [r|] eqn:Hr; [|done].
    apply sanitize_returns_tidy in Hr as [Ht Hv]. simpl.
    rewrite str_upper_lower.
    apply sanitize_tidy; [by rewrite tidy_str_upper|by rewrite valid_identifier_str_upper]. }
  split; [done|]. rewrite Heq. intros s Hs.
  destruct (_sanitize_identifier (ObjectDef.name o)) as [r|] eqn:Hr; [|done].
  injection Hs as <-. apply sanitize_returns_tidy in Hr as [_ Hv].
  split; [by rewrite valid_identifier_str_upper|apply str_upper_no_lower].
Qed.

Example object_name_upper_leading_digit :
  ObjectDef.name_upper
    {| ObjectDef.oid := 0; ObjectDef.name := "3GPP cell"; ObjectDef.version := "";
       ObjectDef.description := ""; ObjectDef.urn := ""; ObjectDef.multiple := false;
       ObjectDef.mandatory := false; ObjectDef.resources := [] |}
  = Ok "THREEGPP_CELL".
Proof. reflexivity. Qed.

Lemma spelling_digit c default :
  is_digit c = true →
  ∃ c' w, dict_get DIGIT_SPELLINGS c default = String c' w ∧ is_lower c' = true.
Proof.
  destruct c as [[] [] [] [] [] [] [] []]; intros H; vm_compute in H;
    try discriminate H; clear H;
    (eexists _, _; split; [reflexivity|vm_compute; reflexivity]).
Qed.

(** The identifier starts with the spelling, or the character itself, of
    the first letter or digit of the name. *)
Lemma sanitize_first_alnum n c0 rest :
  str_filter is_alnum n = String c0 rest →
  ∃ rest1, _sanitize_identifier n
           = Ok (dict_get DIGIT_SPELLINGS c0 (String c0 EmptyString) +:+ rest1).
Proof.
  intros Hn. unfold _sanitize_identifier.
  assert (str_filter is_alnum (strip_underscore (nonalphanum_sub false n))
          = String c0 rest) as Hid.
  { unfold strip_underscore.
    by rewrite str_filter_rstrip, str_filter_lstrip, str_filter_sub. }
  destruct (strip_sub_tidy n) as [He|Ht]; [by rewrite He in Hid|].
  destruct (strip_underscore (nonalphanum_sub false n)) as [|c1 rest1]; [done|].
  apply tidy_head in Ht as [Hc1 _]. simpl in Hid. rewrite Hc1 in Hid.
  injection Hid as -> _. by exists rest1.
Qed.

(** X8: [ResourceDef.name_upper] puts the name in upper case before it
    sanitizes it, so when the first letter or digit of the name is a digit
    the identifier starts with the lower-case spelling of that digit. *)
Theorem resource_name_upper_leading_digit
    (py : builtins) (r : ResourceDef.t) (c : ascii) (rest : string) :
  str_filter is_alnum (upper py (ResourceDef.name r)) = String c rest →
  is_digit c = true →
  ∃ c' s, ResourceDef.name_upper py r = Ok (String c' s) ∧ is_lower c' = true.
Proof.
  intros Hname Hc. unfold ResourceDef.name_upper.
  destruct (sanitize_first_alnum _ _ _ Hname) as [rest1 ->].
  destruct (spelling_digit c (String c EmptyString) Hc) as (c' & w & -> & Hc').
  by exists c', (w +:+ rest1).
Qed.

Lemma resource_name_upper_leading_digit_witness :
  ∃ c' s,
    ResourceDef.name_upper sample_builtins (sample_resource 0 "3GPP" "R" false "string")
    = Ok (String c' s)
    ∧ is_lower c' = true.
Proof.
  apply (resource_name_upper_leading_digit sample_builtins
           (sample_resource 0 "3GPP" "R" false "string") "3" "GPP"); reflexivity.
Defined.

Example resource_name_upper_3GPP :
  ResourceDef.name_upper sample_builtins (sample_resource 0 "3GPP" "R" false "string")
  = Ok "threeGPP".
Proof. reflexivity. Qed.

(** *** [name_pascal] *)

Lemma str_join_split s :
  str_join (split_underscore s) = str_filter (λ c, negb (is_underscore c)) s.
Proof.
  induction s as [|c s IH]; simpl; [done|].
  destruct (is_underscore c); simpl; [done|].
  destruct (split_underscore s) as [|word words]; simpl in *; by rewrite <-IH.
Qed.

Lemma split_words_alnum s :
  all_chars (λ c, is_alnum c || is_underscore c) s = true →
  Forall (λ word, all_chars is_alnum word = true) (split_underscore s).
Proof.
  induction s as [|c s IH]; simpl.
  { by repeat constructor. }
  intros [Hc Hs]%andb_true_iff. specialize (IH Hs).
  destruct (is_underscore c) eqn:Hu.
  - by constructor.
  - rewrite orb_false_r in Hc.
    destruct (split_underscore s) as [|word words].
    + repeat constructor. simpl. by rewrite Hc.
    + inversion_clear IH. constructor; [|done]. simpl. by rewrite Hc.
Qed.

Lemma split_head c s :
  is_underscore c = false →
  ∃ word words, split_underscore (String c s) = String c word :: words.
Proof.
  intros Hc. simpl. rewrite Hc.
  destruct (split_underscore s) as [|word words]; eauto.
Qed.

Lemma str_capitalize_alnum word :
  all_chars is_alnum word = true → all_chars is_alnum (str_capitalize word) = true.
Proof.
  destruct word as [|c word]; simpl; [done|].
  intros [Hc Hw]%andb_true_iff.
  rewrite (proj1 (ascii_upper_classes c)), Hc. simpl.
  unfold str_lower. induction word as [|c2 word IH]; simpl in *; [done|].
  apply andb_true_iff in Hw as [Hc2 Hw].
  by rewrite (proj1 (ascii_lower_classes c2)), Hc2, IH.
Qed.

Lemma all_chars_app p s1 s2 :
  all_chars p (s1 +:+ s2) = all_chars p s1 && all_chars p s2.
Proof.
  induction s1 as [|c s1 IH]; [done|].
  change (String c s1 +:+ s2) with (String c (s1 +:+ s2)). simpl.
  by rewrite IH, andb_assoc.
Qed.

Lemma str_join_capitalize_alnum words :
  Forall (λ word, all_chars is_alnum word = true) words →
  all_chars is_alnum (str_join (str_capitalize <$> words)) = true.
Proof.
  induction 1 as [|word words Hword _ IH]; [done|].
  cbn [fmap list_fmap str_join foldr]. fold (str_join (str_capitalize <$> words)).
  by rewrite all_chars_app, str_capitalize_alnum, IH.
Qed.

Lemma str_map_app f s1 s2 : str_map f (s1 +:+ s2) = str_map f s1 +:+ str_map f s2.
Proof.
  induction s1 as [|c s1 IH]; [done|].
  change (String c s1 +:+ s2) with (String c (s1 +:+ s2)). simpl.
  rewrite IH. done.
Qed.

Lemma str_lower_capitalize word : str_lower (str_capitalize word) = str_lower word.
Proof.
  destruct word as [|c word]; [done|]. simpl. unfold str_lower. simpl. f_equal.
  - apply ascii_upper_lower.
  - induction word as [|c2 word IH]; simpl; [done|].
    by rewrite (proj2 (proj2 (ascii_upper_lower c2))), IH.
Qed.

Lemma str_lower_join_capitalize words :
  str_lower (str_join (str_capitalize <$> words)) = str_lower (str_join words).
Proof.
  induction words as [|word words IH]; [done|].
  cbn [fmap list_fmap str_join foldr].
  fold (str_join (str_capitalize <$> words)). fold (str_join words).
  unfold str_lower in *. rewrite !str_map_app, IH. f_equal.
  apply str_lower_capitalize.
Qed.

Lemma str_filter_lower s :
  str_filter (λ c, negb (is_underscore c)) (str_lower s)
  = str_lower (str_filter (λ c, negb (is_underscore c)) s).
Proof.
  unfold str_lower. induction s as [|c s IH]; simpl; [done|].
  rewrite (proj1 (proj2 (proj2 (ascii_lower_classes c)))), IH.
  by destruct (is_underscore c).
Qed.

(** X9: [name_pascal], when it returns, is made of letters and digits
    only and starts with an upper-case letter; in lower case it is
    [name_snake] without its underscores. *)
Theorem name_pascal_identifier (o : ObjectDef.t) (p : string) :
  ObjectDef.name_pascal o = Ok p →
  all_chars is_alnum p = true
  ∧ (∃ c rest, p = String c rest ∧ is_upper c = true)
  ∧ (∃ snake, ObjectDef.name_snake o = Ok snake
              ∧ str_lower p = str_filter (λ c, negb (is_underscore c)) snake).
Proof.
  unfold ObjectDef.name_pascal, ObjectDef.name_snake.
  destruct (_sanitize_identifier (ObjectDef.name o)) as [r|] eqn:Hr; [|done].
  intros [= <-]. apply sanitize_returns in Hr as (c' & r' & -> & Hc' & Ht).
  split; [|split].
  - apply str_join_capitalize_alnum, split_words_alnum.
    by apply (tidy_all_chars true).
  - destruct (split_head c' r') as (word & words & ->).
    { destruct (is_underscore c') eqn:Hu; [|done].
      apply underscore_not_alnum in Hu. apply alpha_alnum in Hc'. congruence. }
    exists (ascii_upper c'), (str_lower word +:+ str_join (str_capitalize <$> words)).
    split; [done|]. by apply ascii_upper_alpha.
  - eexists. split; [done|].
    by rewrite str_lower_join_capitalize, str_join_split, str_filter_lower.
Qed.

Lemma name_pascal_identifier_witness :
  ObjectDef.name_pascal sample_object = Ok "LightControl"
  ∧ all_chars is_alnum "LightControl" = true
  ∧ (∃ c rest, "LightControl" = String c rest ∧ is_upper c = true)
  ∧ (∃ snake, ObjectDef.name_snake sample_object = Ok snake
              ∧ str_lower "LightControl"
                = str_filter (λ c, negb (is_underscore c)) snake).
Proof.
  split; [reflexivity|].
  apply (name_pascal_identifier sample_object). reflexivity.
Defined.

Example name_pascal_digit_word :
  ObjectDef.name_pascal
    {| ObjectDef.oid := 0; ObjectDef.name := "3GPP cell-2b ID"; ObjectDef.version := "";
       ObjectDef.description := ""; ObjectDef.urn := ""; ObjectDef.multiple := false;
       ObjectDef.mandatory := false; ObjectDef.resources := [] |}
  = Ok "ThreegppCell2bId".
Proof. reflexivity. Qed.

(** ** [type_enum] and [union_res_value_field] *)

Lemma type_enum_types_not_null k v :
  assoc ResourceDef.type_enum_types k = Some v → v ≠ "ANJ_DATA_TYPE_NULL".
Proof. by_cases_on_key; by intros [= <-]. Qed.

Lemma union_types_not_error k v :
  assoc ResourceDef.union_res_value_field_types k = Some v → v ≠ "Error: unknown type".
Proof. by_cases_on_key; by intros [= <-]. Qed.

Lemma union_types_keys k :
  is_key ResourceDef.union_res_value_field_types k = is_key ResourceDef.type_enum_types k.
Proof. by_cases_on_key. Qed.

(** X10: [type_enum] raises exactly for a type outside its table on a
    resource whose operations have no [E], and returns
    [ANJ_DATA_TYPE_NULL] exactly for such a type on a resource whose
    operations have an [E]; a type of the table never gives the null tag. *)
Theorem type_enum_unknown_type (py : builtins) (r : ResourceDef.t) :
  (raises (ResourceDef.type_enum py r) = true
   ↔ is_key ResourceDef.type_enum_types (lower py (ResourceDef.type r)) = false
     ∧ str_contains "E" (ResourceDef.operations r) = false)
  ∧ (ResourceDef.type_enum py r = Ok "ANJ_DATA_TYPE_NULL"
     ↔ is_key ResourceDef.type_enum_types (lower py (ResourceDef.type r)) = false
       ∧ str_contains "E" (ResourceDef.operations r) = true).
Proof.
  unfold ResourceDef.type_enum, is_key.
  destruct (assoc _ (lower py (ResourceDef.type r))) as [v|] eqn:Hv; simpl.
  - apply type_enum_types_not_null in Hv. split; split; try done.
    + by intros [? _].
    + by intros [= ->].
    + by intros [? _].
  - destruct (str_contains "E" (ResourceDef.operations r)); simpl; split; split; try done.
    + by intros [_ ?].
    + by intros [_ ?].
Qed.

(** X11: [union_res_value_field] gives its error text exactly when
    [type_enum] raises or gives the null tag: the two tables have the same
    keys. *)
Theorem union_res_value_field_unknown_type (py : builtins) (r : ResourceDef.t) :
  ResourceDef.union_res_value_field py r = "Error: unknown type"
  ↔ ResourceDef.type_enum py r = Raise AssertionError
    ∨ ResourceDef.type_enum py r = Ok "ANJ_DATA_TYPE_NULL".
Proof.
  pose proof (union_types_keys (lower py (ResourceDef.type r))) as Hkeys.
  unfold ResourceDef.union_res_value_field, ResourceDef.type_enum, is_key in *.
  destruct (assoc ResourceDef.union_res_value_field_types _) as [f|] eqn:Hf;
    destruct (assoc ResourceDef.type_enum_types _) as [v|] eqn:Hv; try done; simpl.
  - apply union_types_not_error in Hf. apply type_enum_types_not_null in Hv.
    split; [done|]. intros [?|[= ?]]; done.
  - split; [|done]. intros _.
    destruct (str_contains "E" (ResourceDef.operations r)); auto.
Qed.

Example type_enum_of_executable :
  ResourceDef.type_enum sample_builtins (sample_resource 4 "Reboot" "E" false "N/A")
  = Ok "ANJ_DATA_TYPE_NULL"
  ∧ ResourceDef.type_enum sample_builtins (sample_resource 4 "Level" "RW" false "N/A")
    = Raise AssertionError
  ∧ ResourceDef.type_enum sample_builtins (sample_resource 4 "Level" "RW" false "corelnk")
    = Ok "ANJ_DATA_TYPE_STRING".
Proof. repeat split. Qed.

(** ** The predicates of an object *)

Lemma existsb_elem_of {A} (p : A → bool) (l : list A) :
  existsb p l = true ↔ ∃ x, x ∈ l ∧ p x = true.
Proof.
  rewrite existsb_exists. split; intros (x & Hx & Hp); exists x; split; try done;
    by apply list_elem_of_In.
Qed.

(** X12: an object with a multiple writable resource has a multiple
    resource, has a writable resource and needs the instance reset
    handler. *)
Theorem multiple_writable_resources_imply (o : ObjectDef.t) :
  ObjectDef.has_any_multiple_writable_resources o = true →
  ObjectDef.has_any_multiple_resources o = true
  ∧ ObjectDef.has_any_writable_resources o = true
  ∧ ObjectDef.needs_instance_reset_handler o = true.
Proof.
  unfold ObjectDef.has_any_multiple_writable_resources,
    ObjectDef.needs_instance_reset_handler, ObjectDef.has_any_multiple_resources,
    ObjectDef.has_any_writable_resources.
  intros (r & Hr & [Hm Hw]%andb_true_iff)%existsb_elem_of.
  assert (existsb (λ res, str_contains "W" (ResourceDef.operations res))
                  (ObjectDef.resources o) = true) as Hany.
  { apply existsb_elem_of. eauto. }
  split; [|split].
  - apply existsb_elem_of. eauto.
  - done.
  - rewrite Hany. apply orb_true_r.
Qed.

Lemma multiple_writable_resources_imply_witness :
  ObjectDef.has_any_multiple_resources sample_object = true
  ∧ ObjectDef.has_any_writable_resources sample_object = true
  ∧ ObjectDef.needs_instance_reset_handler sample_object = true.
Proof. apply multiple_writable_resources_imply. reflexivity. Defined.

(** The converse does not hold: a multiple read-only resource beside a
    single writable one. *)
Example multiple_and_writable_apart :
  let o := {| ObjectDef.oid := 0; ObjectDef.name := "o"; ObjectDef.version := "";
              ObjectDef.description := ""; ObjectDef.urn := "";
              ObjectDef.multiple := false; ObjectDef.mandatory := false;
              ObjectDef.resources :=
                [ sample_resource 1 "a" "R" true "integer";
                  sample_resource 2 "b" "W" false "integer" ] |} in
  ObjectDef.has_any_multiple_resources o = true
  ∧ ObjectDef.has_any_writable_resources o = true
  ∧ ObjectDef.has_any_multiple_writable_resources o = false.
Proof. repeat split. Qed.

Lemma valid_operations_contains ops :
  ops ∈ valid_operations →
  str_contains "R" ops = bool_decide (ops ∈ ["R"; "RW"; "BS_RW"])
  ∧ str_contains "W" ops = bool_decide (ops ∈ ["W"; "RW"; "BS_RW"])
  ∧ str_contains "E" ops = bool_decide (ops = "E").
Proof.
  unfold valid_operations. rewrite !elem_of_cons, elem_of_nil.
  intros [->|[->|[->|[->|[->|[]]]]]]; vm_compute; done.
Qed.

(** X13: on an object whose resources all have one of the five operations,
    the three tests by letter sort the resources as follows: [R], [RW] and
    [BS_RW] are readable, [W], [RW] and [BS_RW] are writable, and [E] alone
    is executable. *)
Theorem has_any_by_operations (o : ObjectDef.t) :
  (∀ r, r ∈ ObjectDef.resources o → ResourceDef.operations r ∈ valid_operations) →
  (ObjectDef.has_any_readable_resources o = true
   ↔ ∃ r, r ∈ ObjectDef.resources o ∧ ResourceDef.operations r ∈ ["R"; "RW"; "BS_RW"])
  ∧ (ObjectDef.has_any_writable_resources o = true
     ↔ ∃ r, r ∈ ObjectDef.resources o ∧ ResourceDef.operations r ∈ ["W"; "RW"; "BS_RW"])
  ∧ (ObjectDef.has_any_executable_resources o = true
     ↔ ∃ r, r ∈ ObjectDef.resources o ∧ ResourceDef.operations r = "E").
Proof.
  intros Hvalid.
  unfold ObjectDef.has_any_readable_resources, ObjectDef.has_any_writable_resources,
    ObjectDef.has_any_executable_resources.
  rewrite !existsb_elem_of.
  split; [|split]; split; intros (r & Hr & Hops); exists r; split; try done;
    destruct (valid_operations_contains _ (Hvalid r Hr)) as (HR & HW & HE).
  - rewrite HR in Hops. by apply bool_decide_eq_true in Hops.
  - rewrite HR. by apply bool_decide_eq_true.
  - rewrite HW in Hops. by apply bool_decide_eq_true in Hops.
  - rewrite HW. by apply bool_decide_eq_true.
  - rewrite HE in Hops. by apply bool_decide_eq_true in Hops.
  - rewrite HE. by apply bool_decide_eq_true.
Qed.

Lemma has_any_by_operations_witness :
  ObjectDef.has_any_executable_resources sample_single_object = true
  ↔ ∃ r, r ∈ ObjectDef.resources sample_single_object ∧ ResourceDef.operations r = "E".
Proof.
  apply (has_any_by_operations sample_single_object).
  intros r Hr. simpl in Hr. rewrite elem_of_cons, elem_of_nil in Hr.
  destruct Hr as [->|[]]. simpl. unfold valid_operations.
  rewrite !elem_of_cons. auto 6.
Defined.

(** ** Parsing resources and objects *)

Lemma single_multiple_Ok s b :
  single_multiple s = Ok b → (if b then "Multiple" else "Single") = s.
Proof.
  unfold single_multiple. repeat case_bool_decide; by intros [= <-].
Qed.

Lemma optional_mandatory_Ok s b :
  optional_mandatory s = Ok b → (if b then "Mandatory" else "Optional") = s.
Proof.
  unfold optional_mandatory. repeat case_bool_decide; by intros [= <-].
Qed.

Lemma resource_from_etree_Ok py res r :
  ResourceDef.from_etree py res = Ok r →
  int_opt py (Element.get res "ID") = Ok (ResourceDef.rid r)
  ∧ single_multiple (_node_text py (Element.find res "MultipleInstances"))
    = Ok (ResourceDef.multiple r)
  ∧ optional_mandatory (_node_text py (Element.find res "Mandatory"))
    = Ok (ResourceDef.mandatory r)
  ∧ ResourceDef.operations r
    = str_or (upper py (_node_text py (Element.find res "Operations"))) "RW"
  ∧ ResourceDef.type r = str_or (lower py (_node_text py (Element.find res "Type"))) "N/A"
  ∧ ResourceDef.range_enumeration r
    = str_or (_node_text py (Element.find res "RangeEnumeration")) "N/A"
  ∧ ResourceDef.units r = str_or (_node_text py (Element.find res "Units")) "N/A".
Proof.
  unfold ResourceDef.from_etree.
  intros (rid & Hrid & H)%bind_Ok.
  apply bind_Ok in H as (multiple & Hmultiple & H).
  apply bind_Ok in H as (mandatory & Hmandatory & H).
  by injection H as <-.
Qed.

Lemma object_from_etree_Ok py obj resources_subset o :
  ObjectDef.from_etree py obj resources_subset = Ok o →
  single_multiple (_node_text py (Element.find obj "MultipleInstances"))
  = Ok (ObjectDef.multiple o)
  ∧ optional_mandatory (_node_text py (Element.find obj "Mandatory"))
    = Ok (ObjectDef.mandatory o).
Proof.
  unfold ObjectDef.from_etree.
  intros (resources & _ & H)%bind_Ok.
  apply bind_Ok in H as (oid & _ & H).
  apply bind_Ok in H as (multiple & Hmultiple & H).
  apply bind_Ok in H as (mandatory & Hmandatory & H).
  by injection H as <-.
Qed.

(** X14: [multiple_str] and [mandatory_str] of a parsed resource give
    back the texts of its [MultipleInstances] and [Mandatory] nodes. *)
Theorem resource_str_round_trip (py : builtins) (res : Element) (r : ResourceDef.t) :
  ResourceDef.from_etree py res = Ok r →
  ResourceDef.multiple_str r = _node_text py (Element.find res "MultipleInstances")
  ∧ ResourceDef.mandatory_str r = _node_text py (Element.find res "Mandatory").
Proof.
  intros (_ & Hmultiple & Hmandatory & _)%resource_from_etree_Ok.
  split; [by apply single_multiple_Ok|by apply optional_mandatory_Ok].
Qed.

Lemma resource_str_round_trip_witness :
  ResourceDef.multiple_str (sample_resource 5 "Levels" "RW" true "integer") = "Multiple"
  ∧ ResourceDef.mandatory_str (sample_resource 5 "Levels" "RW" true "integer") = "Mandatory".
Proof.
  apply (resource_str_round_trip sample_builtins
           (sample_item "5" "Levels" "RW" "Multiple" "integer")).
  vm_compute. reflexivity.
Defined.

(** X15: [multiple_str] and [mandatory_str] of a parsed object give back
    the texts of its [MultipleInstances] and [Mandatory] nodes. *)
Theorem object_str_round_trip
    (py : builtins) (obj : Element) (resources_subset : option (list Z)) (o : ObjectDef.t) :
  ObjectDef.from_etree py obj resources_subset = Ok o →
  ObjectDef.multiple_str o = _node_text py (Element.find obj "MultipleInstances")
  ∧ ObjectDef.mandatory_str o = _node_text py (Element.find obj "Mandatory").
Proof.
  intros [Hmultiple Hmandatory]%object_from_etree_Ok.
  split; [by apply single_multiple_Ok|by apply optional_mandatory_Ok].
Qed.

Lemma object_str_round_trip_witness :
  ObjectDef.multiple_str sample_object = "Multiple"
  ∧ ObjectDef.mandatory_str sample_object = "Optional".
Proof.
  apply (object_str_round_trip sample_builtins sample_object_node None).
  vm_compute. reflexivity.
Defined.




(** X17: a resource node parses exactly when its [ID] attribute converts
    to an integer and its [MultipleInstances] and [Mandatory] texts are
    among the two that each of them allows; no other node is needed. *)
Theorem resource_from_etree_succeeds_iff (py : builtins) (res : Element) :
  raises (ResourceDef.from_etree py res) = false
  ↔ raises (int_opt py (Element.get res "ID")) = false
    ∧ _node_text py (Element.find res "MultipleInstances") ∈ ["Single"; "Multiple"]
    ∧ _node_text py (Element.find res "Mandatory") ∈ ["Optional"; "Mandatory"].
Proof.
  unfold ResourceDef.from_etree, single_multiple, optional_mandatory.
  destruct (int_opt py (Element.get res "ID")) as [rid|e]; simpl; [|by split; [|intros []]].
  rewrite !elem_of_cons, !elem_of_nil.
  repeat case_bool_decide; simpl; intuition congruence.
Qed.

Lemma mapM_raises {A B} (f : A → result B) (l : list A) (x : A) :
  x ∈ l → raises (f x) = true → raises (mapM f l) = true.
Proof.
  induction 1 as [x l|x y l _ IH]; intros Hx; simpl.
  - by destruct (f x).
  - destruct (f y); [|done]. simpl. specialize (IH Hx).
    by destruct (mapM f l).
Qed.

Lemma mapM_length {A B} (f : A → result B) (l : list A) (k : list B) :
  mapM f l = Ok k → length k = length l.
Proof.
  revert k. induction l as [|x l IH]; intros k; simpl.
  - by intros [= <-].
  - destruct (f x); [|done]. simpl. destruct (mapM f l); [|done]. simpl.
    intros [= <-]. simpl. f_equal. by apply IH.
Qed.

(** X18: one resource node that does not parse makes the whole object
    fail, also when an allow-list leaves that resource out. *)
Theorem malformed_item_aborts
    (py : builtins) (obj rs item : Element) (resources_subset : option (list Z)) :
  Element.find obj "Resources" = Some rs →
  item ∈ Element.findall rs "Item" →
  raises (ResourceDef.from_etree py item) = true →
  raises (ObjectDef.from_etree py obj resources_subset) = true.
Proof.
  intros Hrs Hitem Hraises.
  unfold ObjectDef.from_etree, ObjectDef.parse_resources. rewrite Hrs.
  pose proof (mapM_raises _ _ _ Hitem Hraises) as HmapM.
  by destruct (mapM _ _).
Qed.

Lemma malformed_item_aborts_witness :
  raises (ObjectDef.from_etree sample_builtins sample_broken_node (Some [1])) = true.
Proof.
  apply (malformed_item_aborts sample_builtins sample_broken_node
           (Elem "Resources" [] None
              [ sample_item "1" "On/Off" "RW" "Single" "boolean";
                Elem "Item" [] None [leaf "Name" "No ID"] ])
           (Elem "Item" [] None [leaf "Name" "No ID"])).
  - reflexivity.
  - vm_compute. apply list_elem_of_further, list_elem_of_here.
  - reflexivity.
Defined.

Lemma from_etree_allow_list py obj subset :
  ObjectDef.from_etree py obj (Some subset)
  = (λ o, with_resources o
            (filter (λ r, ResourceDef.rid r ∈ subset) (ObjectDef.resources o)))
      <$> ObjectDef.from_etree py obj None.
Proof.
  unfold ObjectDef.from_etree.
  destruct (ObjectDef.parse_resources py obj); [|done]. simpl.
  destruct (int py _); [|done]. simpl.
  destruct (single_multiple _); [|done]. simpl.
  by destruct (optional_mandatory _).
Qed.

(** X19: parsing with an allow-list is parsing without one and then
    keeping the resources of the list: the list changes no other field and
    never whether the object parses. *)
Theorem allow_list_filters_after_parse
    (py : builtins) (obj : Element) (subset : list Z) :
  ObjectDef.from_etree py obj (Some subset)
  = (λ o, with_resources o
            (filter (λ r, ResourceDef.rid r ∈ subset) (ObjectDef.resources o)))
      <$> ObjectDef.from_etree py obj None.
Proof. apply from_etree_allow_list. Qed.

Lemma filter_elem_of_ext {A} (P Q : A → Prop)
    `{!∀ x, Decision (P x), !∀ x, Decision (Q x)} (l : list A) :
  (∀ x, x ∈ l → P x ↔ Q x) → filter P l = filter Q l.
Proof.
  induction l as [|x l IH]; intros Hext; [done|].
  rewrite !filter_cons.
  rewrite IH by (intros y Hy; apply Hext; by right).
  destruct (decide (P x)) as [HP|HP], (decide (Q x)) as [HQ|HQ]; try done.
  - destruct HQ. apply Hext; [by left|done].
  - destruct HP. apply Hext; [by left|done].
Qed.

(** X20: IDs of the allow-list that no resource of the object has are
    ignored. *)
Theorem allow_list_unknown_ids_ignored
    (py : builtins) (obj : Element) (subset extra : list Z) (o : ObjectDef.t) :
  ObjectDef.from_etree py obj None = Ok o →
  (∀ r, r ∈ ObjectDef.resources o → ResourceDef.rid r ∉ extra) →
  ObjectDef.from_etree py obj (Some (subset ++ extra))
  = ObjectDef.from_etree py obj (Some subset).
Proof.
  intros Ho Hextra. rewrite !from_etree_allow_list, Ho. simpl. do 2 f_equal.
  apply filter_elem_of_ext. intros r Hr. rewrite elem_of_app.
  specialize (Hextra r Hr). tauto.
Qed.

Lemma allow_list_unknown_ids_ignored_witness :
  ObjectDef.from_etree sample_builtins sample_object_node (Some ([5; 1] ++ [7; 9]))
  = ObjectDef.from_etree sample_builtins sample_object_node (Some [5; 1]).
Proof.
  apply (allow_list_unknown_ids_ignored sample_builtins sample_object_node
           [5; 1] [7; 9] sample_object).
  - vm_compute. reflexivity.
  - intros r Hr. simpl in Hr. rewrite !elem_of_cons, elem_of_nil in Hr.
    rewrite !elem_of_cons, elem_of_nil.
    destruct Hr as [->|[->|[->|[]]]]; simpl; intros [[=]|[[=]|[]]].
Defined.

Lemma parse_resources_items py obj resources :
  ObjectDef.parse_resources py obj = Ok resources →
  ∃ rs items,
    Element.find obj "Resources" = Some rs
    ∧ mapM (ResourceDef.from_etree py) (Element.findall rs "Item") = Ok items
    ∧ resources = sorted ResourceDef.rid items.
Proof.
  unfold ObjectDef.parse_resources.
  destruct (Element.find obj "Resources") as [rs|]; [|done].
  intros (items & Hitems & [= <-])%bind_Ok. by exists rs, items.
Qed.

(** X21: without an allow-list a parsed object has one resource for each
    [Item] node, none dropped and none added, also when IDs repeat; with an
    allow-list it has at most as many. *)
Theorem resources_count
    (py : builtins) (obj rs : Element) (resources_subset : option (list Z))
    (o : ObjectDef.t) :
  ObjectDef.from_etree py obj resources_subset = Ok o →
  Element.find obj "Resources" = Some rs →
  (length (ObjectDef.resources o) ≤ length (Element.findall rs "Item"))%nat
  ∧ (resources_subset = None →
     length (ObjectDef.resources o) = length (Element.findall rs "Item")).
Proof.
  intros (resources & Hparse & ->)%from_etree_resources Hrs.
  apply parse_resources_items in Hparse as (rs' & items & Hrs' & Hitems & ->).
  rewrite Hrs in Hrs'. injection Hrs' as <-.
  apply mapM_length in Hitems.
  assert (length (sorted ResourceDef.rid items) = length (Element.findall rs "Item"))
    as Hlength.
  { rewrite <-Hitems. apply Permutation_length, sorted_Permutation. }
  split.
  - destruct resources_subset; simpl; [|by rewrite Hlength].
    etrans; [apply length_filter|]. by rewrite Hlength.
  - by intros ->.
Qed.

Lemma resources_count_witness :
  length (ObjectDef.resources sample_object) = 3%nat.
Proof.
  assert (ObjectDef.from_etree sample_builtins sample_object_node None = Ok sample_object)
    as Hparse by (vm_compute; reflexivity).
  exact (proj2 (resources_count sample_builtins sample_object_node
                  (Elem "Resources" [] None
                     [ sample_item "5" "Levels" "RW" "Multiple" "integer";
                       sample_item "1" "On/Off" "RW" "Single" "boolean";
                       sample_item "3" "Dimmer" "RW" "Single" "integer" ])
                  None sample_object Hparse eq_refl) eq_refl).
Defined.




(** Two items with one ID: both are kept, the first of the document
    first. *)
Example repeated_id_is_kept :
  (λ o, (λ r, (ResourceDef.rid r, ResourceDef.name r)) <$> ObjectDef.resources o)
    <$> ObjectDef.from_etree sample_builtins
          (Elem "Object" [] None
             [ leaf "ObjectID" "9"; leaf "MultipleInstances" "Single";
               leaf "Mandatory" "Optional";
               Elem "Resources" [] None
                 [ sample_item "2" "second" "R" "Single" "integer";
                   sample_item "1" "first" "R" "Single" "integer";
                   sample_item "2" "third" "R" "Single" "integer" ] ])
          None
  = Ok [(1, "first"); (2, "second"); (2, "third")].
Proof. vm_compute. reflexivity. Qed.

(** ** The generation, continued *)

(** X23: for an object that is not multiple-instance the single-instance
    template is rendered whatever instance count is given, none and 0
    included. *)
Theorem single_object_selects_single_template
    (render : string → template_args → result string) (now : string)
    (o : ObjectDef.t) (instances_number : option Z) (transactional : bool)
    (resource_instances : option (list (Z * Z)))
    (dynamic_resources dynamic_instances : bool) :
  ObjectDef.multiple o = false →
  generate_object_boilerplate render now o instances_number transactional
    resource_instances dynamic_resources dynamic_instances
  = (d ← resource_instances_dict o resource_instances;
     Some <$> render C_SINGLE_INST_TEMPLATE_FILENAME
       {| obj := o; transactional := transactional; resource_instances := d;
          dynamic_resources_instances := dynamic_resources;
          instances_number := instances_number;
          dynamic_object_instances := dynamic_instances; date_time := now |}).
Proof. intros Hm. unfold generate_object_boilerplate. by rewrite Hm. Qed.

Lemma single_object_selects_single_template_witness :
  generate_object_boilerplate sample_render "2025-01-01 00:00:00" sample_single_object
    (Some 7) false None false true = Ok (Some C_SINGLE_INST_TEMPLATE_FILENAME)
  ∧ generate_object_boilerplate sample_render "2025-01-01 00:00:00" sample_single_object
      None false None false true = Ok (Some C_SINGLE_INST_TEMPLATE_FILENAME).
Proof.
  split.
  - rewrite single_object_selects_single_template by reflexivity.
    vm_compute. reflexivity.
  - vm_compute. reflexivity.
Defined.

Lemma collect_resource_instances_NoDup (pairs : list (Z * Z)) (d : gmap Z Z) :
  NoDup pairs.*1 → (∀ rid, rid ∈ pairs.*1 → d !! rid = None) →
  ∃ d', collect_resource_instances pairs d = Ok d'.
Proof.
  revert d. induction pairs as [|[rid count] pairs IH]; intros d; simpl; [eauto|].
  intros [Hrid Hnd]%NoDup_cons Hfresh.
  rewrite (Hfresh rid) by by left.
  apply IH; [done|]. intros k Hk.
  rewrite lookup_insert_ne by (intros <-; done).
  apply Hfresh. by right.
Qed.

(** X24: the instance counts resolve exactly when no resource ID is given
    twice; nothing else about the pairs or the object makes them fail, an
    ID that no resource has included. *)
Theorem resource_instances_dict_succeeds_iff
    (o : ObjectDef.t) (resource_instances : option (list (Z * Z))) :
  raises (resource_instances_dict o resource_instances) = false
  ↔ NoDup (default [] resource_instances).*1.
Proof.
  unfold resource_instances_dict. split.
  - destruct (collect_resource_instances _ ∅) as [d|e] eqn:Hd; [|done].
    intros _. by apply collect_resource_instances_Ok in Hd as [? _].
  - intros Hnd.
    destruct (collect_resource_instances_NoDup _ ∅ Hnd) as [d ->]; [|done].
    intros rid _. apply lookup_empty.
Qed.

Example resource_instances_of_unknown_id :
  (λ d, map_to_list d) <$> resource_instances_dict sample_object (Some [(42, 9)])
  = Ok [(5, 2); (42, 9)] ∨
  (λ d, map_to_list d) <$> resource_instances_dict sample_object (Some [(42, 9)])
  = Ok [(42, 9); (5, 2)].
Proof. vm_compute. auto. Qed.


(** ** The command line, continued *)

Section cli_properties.
Context (py : builtins) (render : string → template_args → result string) (now : string).
Context (parse_args : list string → parse_outcome) (fromstring : string → result Element).
Context (stdin : string) (files : string → option string).







(** X27: a run prints its note exactly when it is not a listing and more
    than one instance is asked of an object that is not multiple-instance. *)
Theorem note_printed_iff (args : Args.t) (o : ObjectDef.t) :
  existsb is_note (trace (emit render now args o)) = true
  ↔ Args.list_ args = false
    ∧ 1 < Args.instances_number args
    ∧ ObjectDef.multiple o = false.
Proof.
  unfold emit. destruct (Args.list_ args); cbn [trace].
  { rewrite list_prints_no_note. by split; [|intros []]. }
  destruct (1 <? Args.instances_number args) eqn:Hn;
    destruct (ObjectDef.multiple o) eqn:Hm; cbn [andb negb];
    destruct (generate_object_boilerplate _ _ _ _ _ _ _ _); cbn [trace app existsb is_note];
    try case_bool_decide; cbn [is_note orb];
    (split; [try done|]); try (intros (_ & ? & ?); lia || done);
    intros _; (split; [done|]); (split; [lia|done]).
Qed.

(** X28: asking more than one instance of an object that is not
    multiple-instance gives, after the note, the run of asking one. *)
Theorem more_instances_of_single_object (args : Args.t) (o : ObjectDef.t) :
  Args.list_ args = false →
  1 < Args.instances_number args →
  ObjectDef.multiple o = false →
  emit render now args o
  = {| trace := PrintNote (ObjectDef.name o) (Args.instances_number args)
                :: trace (emit render now (with_instances_number args 1) o);
       status := status (emit render now (with_instances_number args 1) o) |}.
Proof.
  intros Hlist Hn Hm. unfold emit, with_instances_number. simpl.
  rewrite Hlist, Hm. replace (1 <? Args.instances_number args) with true by lia.
  simpl. by destruct (generate_object_boilerplate _ _ _ _ _ _ _ _).
Qed.
End cli_properties.



Lemma more_instances_of_single_object_witness :
  emit sample_render "2025-01-01 00:00:00" (sample_args 3) sample_single_object
  = {| trace := PrintNote "Device" 3
                :: trace (emit sample_render "2025-01-01 00:00:00"
                            (with_instances_number (sample_args 3) 1) sample_single_object);
       status := status (emit sample_render "2025-01-01 00:00:00"
                           (with_instances_number (sample_args 3) 1)
                           sample_single_object) |}.
Proof. apply more_instances_of_single_object; [reflexivity|simpl; lia|reflexivity]. Defined.
